(** * TransactAI local data-access layer (localStorageService)

    A shallow embedding of the browser-storage service of the repository:
    key derivation ([getUserKey]), and the profile, transaction, category,
    PIN, session and download services built on it.

    - [localStorage] is a finite map from keys to strings.
    - Values read back by [JSON.parse] are untyped JSON values; TypeScript's
      interfaces are erased at run time, so the operations are modelled on
      JSON values with JavaScript's dynamic behaviour (property access,
      truthiness, [TypeError] on [null], ...).
    - Exceptions are results of type [Result]; [try]/[catch] is a match.
    - [new Date().toISOString()] is an explicit argument [now].
    - [localStorage.setItem] always succeeds: the storage quota is not
      modelled. *)

From stdpp Require Import gmap strings list fin_maps.
From Stdlib Require Import ZArith Ascii DecimalString DecimalPos DecimalZ.

#[local] Set Warnings "-register-all".

(** ** JSON values *)

(** What [JSON.parse] returns and [JSON.stringify] accepts. Objects are
    finite maps from property names to values. Numbers are restricted to
    the integers (those a double represents exactly). *)
Inductive json : Type :=
  | JNull
  | JBool (b : bool)
  | JNum (n : Z)
  | JStr (s : string)
  | JArr (l : list json)
  | JObj (o : gmap string json).

(** ** Exceptions *)

Inductive Exn : Type :=
  | SyntaxError   (* thrown by JSON.parse *)
  | TypeError.    (* property of null/undefined, call of a non-function *)

Inductive Result (A : Type) : Type :=
  | Ok (a : A)
  | Throw (e : Exn).
Arguments Ok {A} a.
Arguments Throw {A} e.

Definition bind {A B} (r : Result A) (k : A → Result B) : Result B :=
  match r with
  | Ok a => k a
  | Throw e => Throw e
  end.

Notation "'let*' x := r 'in' k" := (bind r (fun x => k))
  (at level 10, x name, r at level 100, k at level 200).

(** ** The JavaScript built-ins used by the service *)

(** [JSON.stringify], [JSON.parse] ([None] stands for the [SyntaxError] it
    throws) and [String.prototype.toLowerCase], with the two laws of the
    built-ins the service depends on: parsing what was serialised gives the
    value back, and the empty string is not JSON. *)
Class Runtime : Type := {
  JSON_stringify : json → string;
  JSON_parse : string → option json;
  toLowerCase : string → string;
  JSON_parse_stringify : ∀ v, JSON_parse (JSON_stringify v) = Some v;
  JSON_parse_empty : JSON_parse "" = None;
}.

(** ** Strings, truthiness and property access *)

(** [s.replace(/\+/g, '')] *)
Fixpoint strip_plus (s : string) : string :=
  match s with
  | EmptyString => EmptyString
  | String c s' =>
      if Ascii.eqb c "+"%char then strip_plus s' else String c (strip_plus s')
  end.

(** Truthiness of a string: every string but the empty one. *)
Definition nonempty (s : string) : bool :=
  match s with
  | EmptyString => false
  | String _ _ => true
  end.

(** Truthiness of an optional string ([undefined]/[null] are falsy). *)
Definition truthy (o : option string) : bool :=
  match o with
  | Some s => nonempty s
  | None => false
  end.

(** [a || d] for a string literal [d]. *)
Definition or_str (a : option string) (d : string) : string :=
  match a with
  | Some s => if nonempty s then s else d
  | None => d
  end.

(** [v.k] for the property names used by the service ([id], [name],
    [phone], [category]): [TypeError] on [null], the property of an object,
    [undefined] ([None]) on every other value. *)
Definition prop (v : json) (k : string) : Result (option json) :=
  match v with
  | JNull => Throw TypeError
  | JObj o => Ok (o !! k)
  | _ => Ok None
  end.

(** [v === s] for a property value [v] and a string [s]. *)
Definition is_str (s : string) (v : option json) : bool :=
  match v with
  | Some (JStr s') => bool_decide (s' = s)
  | _ => false
  end.

(** [v.phone?.replace(/\+/g, '')]: [undefined] when the phone is
    [undefined] or [null], [TypeError] when it is not a string. *)
Definition stripped_phone (v : json) : Result (option string) :=
  let* p := prop v "phone" in
  match p with
  | None | Some JNull => Ok None
  | Some (JStr s) => Ok (Some (strip_plus s))
  | Some _ => Throw TypeError
  end.

(** [c.name.toLowerCase()] *)
Definition lower_name `{Runtime} (c : json) : Result string :=
  let* n := prop c "name" in
  match n with
  | Some (JStr s) => Ok (toLowerCase s)
  | _ => Throw TypeError
  end.

(** ** Array methods on parsed values *)

(** The receiver of [push], [unshift], [filter], [find], [findIndex] and
    [map]: calling them on anything but an array is a [TypeError]. *)
Definition as_array (v : json) : Result (list json) :=
  match v with
  | JArr l => Ok l
  | _ => Throw TypeError
  end.

(** [l.filter(p)] for a predicate that may throw. *)
Fixpoint filter_r {A} (p : A → Result bool) (l : list A) : Result (list A) :=
  match l with
  | [] => Ok []
  | x :: l' =>
      let* b := p x in
      let* r := filter_r p l' in
      Ok (if b then x :: r else r)
  end.

(** [l.find(p)] *)
Fixpoint find_r {A} (p : A → Result bool) (l : list A) : Result (option A) :=
  match l with
  | [] => Ok None
  | x :: l' =>
      let* b := p x in
      if b then Ok (Some x) else find_r p l'
  end.

(** [l.findIndex(p)]; [None] stands for [-1]. *)
Fixpoint findIndex_r {A} (p : A → Result bool) (l : list A) : Result (option nat) :=
  match l with
  | [] => Ok None
  | x :: l' =>
      let* b := p x in
      if b then Ok (Some 0)
      else let* i := findIndex_r p l' in Ok (S <$> i)
  end.

(** [l.map(f)] *)
Fixpoint map_r {A B} (f : A → Result B) (l : list A) : Result (list B) :=
  match l with
  | [] => Ok []
  | x :: l' =>
      let* y := f x in
      let* r := map_r f l' in
      Ok (y :: r)
  end.

(** ** The browser *)

(** [has_window] is [typeof window !== 'undefined']; [localStorage] is
    reachable only when it holds. *)
Record Browser : Type := {
  has_window : bool;
  localStorage : gmap string string;
}.

Definition getItem (w : Browser) (k : string) : option string :=
  localStorage w !! k.

Definition setItem (k v : string) (w : Browser) : Browser :=
  {| has_window := has_window w; localStorage := <[k := v]> (localStorage w) |}.

Definition removeItem (k : string) (w : Browser) : Browser :=
  {| has_window := has_window w; localStorage := base.delete k (localStorage w) |}.

(** [JSON.parse(s)] as a computation. *)
Definition parse `{Runtime} (s : string) : Result json :=
  match JSON_parse s with
  | Some v => Ok v
  | None => Throw SyntaxError
  end.

(** [data ? JSON.parse(data) : dflt] for [data = localStorage.getItem(key)]. *)
Definition parse_or `{Runtime} (data : option string) (dflt : json) : Result json :=
  match data with
  | Some s => if nonempty s then parse s else Ok dflt
  | None => Ok dflt
  end.

Module STORAGE_KEYS.
Definition USER_PROFILE := "transactai_user_profile".
Definition TRANSACTIONS := "transactai_transactions".
Definition CATEGORIES := "transactai_categories".
Definition PIN := "transactai_pin".
Definition AUTH_SESSION := "transactai_auth_session".
Definition ONBOARDING_COMPLETE := "transactai_onboarding_complete".
Definition DOWNLOADS := "transactai_downloads".
End STORAGE_KEYS.

(** ** getUserKey *)

(** The body of the [try] block of [getUserKey]: [Ok (Some key)] when it
    returns a key, [Ok None] when it falls through, [Throw] when
    [JSON.parse] or the property access throws. *)
Definition session_key `{Runtime} (baseKey : string) (w : Browser)
    : Result (option string) :=
  match getItem w "transactai_auth_session" with
  | Some session =>
      if nonempty session then
        let* parsed := parse session in
        let* stripped := stripped_phone parsed in
        let phone := or_str stripped "default" in
        Ok (Some (baseKey +:+ "_" +:+ phone))
      else Ok None
  | None => Ok None
  end.

Definition getUserKey `{Runtime} (baseKey : string) (userId : option string)
    (w : Browser) : string :=
  if truthy userId then baseKey +:+ "_" +:+ or_str userId ""
  else if negb (has_window w) then baseKey
  else
    match session_key baseKey w with
    | Ok (Some key) => key
    | Ok None => baseKey
    | Throw _ => baseKey   (* catch (e) { // Ignore } *)
    end.

(** ** User profile operations *)

Module userService.
Section ops.
Context `{Runtime}.

(** [profile] is the object passed by the caller; the stored object is
    [{...profile, updatedAt: now}]. *)
Definition saveProfile (now : string) (profile : gmap string json)
    (userId : option string) (w : Browser) : Result Browser :=
  if negb (has_window w) then Ok w
  else
    let data := <["updatedAt" := JStr now]> profile in
    let* id :=
      (* userId || profile.phone?.replace(/\+/g, '') *)
      if truthy userId then Ok userId else stripped_phone (JObj profile) in
    let key := getUserKey STORAGE_KEYS.USER_PROFILE id w in
    Ok (setItem key (JSON_stringify (JObj data)) w).

Definition getProfile (userId : option string) (w : Browser) : Result json :=
  if negb (has_window w) then Ok JNull
  else
    let key := getUserKey STORAGE_KEYS.USER_PROFILE userId w in
    parse_or (getItem w key) JNull.
End ops.
End userService.

(** ** Transaction operations *)

Module transactionService.
Section ops.
Context `{Runtime}.

Definition getAll (userId : option string) (w : Browser) : Result json :=
  if negb (has_window w) then Ok (JArr [])
  else
    let key := getUserKey STORAGE_KEYS.TRANSACTIONS userId w in
    parse_or (getItem w key) (JArr []).

Definition save (transaction : json) (userId : option string) (w : Browser)
    : Result Browser :=
  if negb (has_window w) then Ok w
  else
    let* transactions := getAll userId w in
    let* l := as_array transactions in
    let pushed := l ++ [transaction] in
    let key := getUserKey STORAGE_KEYS.TRANSACTIONS userId w in
    Ok (setItem key (JSON_stringify (JArr pushed)) w).

Definition saveMany (transactions : list json) (userId : option string)
    (w : Browser) : Result Browser :=
  if negb (has_window w) then Ok w
  else
    let key := getUserKey STORAGE_KEYS.TRANSACTIONS userId w in
    Ok (setItem key (JSON_stringify (JArr transactions)) w).

(** [t => t.id === id] *)
Definition has_id (id : string) (t : json) : Result bool :=
  let* i := prop t "id" in Ok (is_str id i).

(** [{ ...t, ...updates }]: the properties of [updates] override those
    of [t]. Only objects own properties among parsed values that pass
    [has_id]. *)
Definition merge (t : json) (updates : gmap string json) : json :=
  match t with
  | JObj o => JObj (updates ∪ o)
  | _ => JObj updates
  end.

Definition update (id : string) (updates : gmap string json)
    (userId : option string) (w : Browser) : Result Browser :=
  if negb (has_window w) then Ok w
  else
    let* transactions := getAll userId w in
    let* l := as_array transactions in
    let* index := findIndex_r (has_id id) l in
    match index with
    | Some i =>
        match l !! i with
        | Some t =>
            let l' := <[i := merge t updates]> l in
            let key := getUserKey STORAGE_KEYS.TRANSACTIONS userId w in
            Ok (setItem key (JSON_stringify (JArr l')) w)
        | None => Ok w   (* not reached: [i] is an index of [l] *)
        end
    | None => Ok w
    end.

Definition delete (id : string) (userId : option string) (w : Browser)
    : Result Browser :=
  if negb (has_window w) then Ok w
  else
    let* transactions := getAll userId w in
    let* l := as_array transactions in
    let* filtered :=
      filter_r (λ t, let* b := has_id id t in Ok (negb b)) l in
    let key := getUserKey STORAGE_KEYS.TRANSACTIONS userId w in
    Ok (setItem key (JSON_stringify (JArr filtered)) w).

Definition getByCategory (category : string) (userId : option string)
    (w : Browser) : Result (list json) :=
  let* transactions := getAll userId w in
  let* l := as_array transactions in
  filter_r (λ t, let* c := prop t "category" in Ok (is_str category c)) l.
End ops.
End transactionService.

(** ** Category operations *)

Module categoryService.
Section ops.
Context `{Runtime}.

Definition getAll (userId : option string) (w : Browser) : Result json :=
  if negb (has_window w) then Ok (JArr [])
  else
    let key := getUserKey STORAGE_KEYS.CATEGORIES userId w in
    parse_or (getItem w key) (JArr []).

(** [c => c.name.toLowerCase() === categoryName.toLowerCase()] *)
Definition same_name_ci (categoryName : string) (c : json) : Result bool :=
  let* n := lower_name c in
  Ok (bool_decide (n = toLowerCase categoryName)).

Definition add (now : string) (categoryName : string)
    (userId : option string) (w : Browser) : Result Browser :=
  if negb (has_window w) then Ok w
  else
    let* categories := getAll userId w in
    let* l := as_array categories in
    let* found := find_r (same_name_ci categoryName) l in
    match found with
    | Some _ => Ok w   (* a found element is an object, hence truthy *)
    | None =>
        let c := JObj {[ "name" := JStr categoryName; "createdAt" := JStr now ]} in
        let key := getUserKey STORAGE_KEYS.CATEGORIES userId w in
        Ok (setItem key (JSON_stringify (JArr (l ++ [c]))) w)
    end.

(** [c => c.name !== categoryName] *)
Definition other_name (categoryName : string) (c : json) : Result bool :=
  let* n := prop c "name" in
  Ok (negb (is_str categoryName n)).

Definition remove (categoryName : string) (userId : option string)
    (w : Browser) : Result Browser :=
  if negb (has_window w) then Ok w
  else
    let* categories := getAll userId w in
    let* l := as_array categories in
    let* filtered := filter_r (other_name categoryName) l in
    let key := getUserKey STORAGE_KEYS.CATEGORIES userId w in
    Ok (setItem key (JSON_stringify (JArr filtered)) w).

(** The names, [None] standing for [undefined]. *)
Definition getNames (userId : option string) (w : Browser)
    : Result (list (option json)) :=
  let* categories := getAll userId w in
  let* l := as_array categories in
  map_r (λ c, prop c "name") l.
End ops.
End categoryService.

(** ** PIN operations *)

Module pinService.

(** [userId ? `${STORAGE_KEYS.PIN}_${userId}` : STORAGE_KEYS.PIN], the
    key computed by each PIN operation. *)
Definition key (userId : option string) : string :=
  if truthy userId then STORAGE_KEYS.PIN +:+ "_" +:+ or_str userId ""
  else STORAGE_KEYS.PIN.

Definition save (pin : string) (userId : option string) (w : Browser)
    : Browser :=
  if negb (has_window w) then w
  else setItem (key userId) pin w.

Definition verify (pin : string) (userId : option string) (w : Browser)
    : bool :=
  if negb (has_window w) then false
  else bool_decide (getItem w (key userId) = Some pin).

Definition exists_ (userId : option string) (w : Browser) : bool :=
  if negb (has_window w) then false
  else truthy (getItem w (key userId)).

Definition remove (userId : option string) (w : Browser) : Browser :=
  if negb (has_window w) then w
  else removeItem (key userId) w.

(** [None] stands for [null]. *)
Definition get (userId : option string) (w : Browser) : option string :=
  if negb (has_window w) then None
  else getItem w (key userId).
End pinService.

(** ** Auth session operations *)

Module authService.
Section ops.
Context `{Runtime}.

Definition saveSession (now : string) (phone : string) (w : Browser)
    : Browser :=
  if negb (has_window w) then w
  else
    let session := JObj {[ "phone" := JStr phone; "timestamp" := JStr now ]} in
    setItem STORAGE_KEYS.AUTH_SESSION (JSON_stringify session) w.

Definition getSession (w : Browser) : Result json :=
  if negb (has_window w) then Ok JNull
  else parse_or (getItem w STORAGE_KEYS.AUTH_SESSION) JNull.
End ops.
End authService.

(** ** Download operations *)

Module downloadService.
Section ops.
Context `{Runtime}.

Definition getAll (userId : option string) (w : Browser) : Result json :=
  if negb (has_window w) then Ok (JArr [])
  else
    let key := getUserKey STORAGE_KEYS.DOWNLOADS userId w in
    parse_or (getItem w key) (JArr []).

Definition save (download : json) (userId : option string) (w : Browser)
    : Result Browser :=
  if negb (has_window w) then Ok w
  else
    let* downloads := getAll userId w in
    let* l := as_array downloads in
    let unshifted := download :: l in
    let limited := take 50 unshifted in
    let key := getUserKey STORAGE_KEYS.DOWNLOADS userId w in
    Ok (setItem key (JSON_stringify (JArr limited)) w).

Definition delete (id : string) (userId : option string) (w : Browser)
    : Result Browser :=
  if negb (has_window w) then Ok w
  else
    let* downloads := getAll userId w in
    let* l := as_array downloads in
    let* filtered :=
      filter_r (λ d, let* i := prop d "id" in Ok (negb (is_str id i))) l in
    let key := getUserKey STORAGE_KEYS.DOWNLOADS userId w in
    Ok (setItem key (JSON_stringify (JArr filtered)) w).

Definition clear (userId : option string) (w : Browser) : Browser :=
  if negb (has_window w) then w
  else removeItem (getUserKey STORAGE_KEYS.DOWNLOADS userId w) w.
End ops.
End downloadService.

(** ** Vocabulary of the properties *)

(** A browser whose store is empty. *)
Definition empty_browser : Browser :=
  {| has_window := true; localStorage := ∅ |}.

Definition is_object (v : json) : Prop := ∃ o, v = JObj o.

(** The string held by property [k] of an object. *)
Definition str_field (k : string) (v : json) : option string :=
  match v with
  | JObj o =>
      match o !! k with
      | Some (JStr s) => Some s
      | _ => None
      end
  | _ => None
  end.

Definition txn_id (t : json) : option string := str_field "id" t.
Definition category_name (c : json) : option string := str_field "name" c.

(** The category object that [categoryService.add] stores. *)
Definition new_category (now categoryName : string) : json :=
  JObj {[ "name" := JStr categoryName; "createdAt" := JStr now ]}.

(** Successive calls of [downloadService.save], first element first. *)
Fixpoint save_all `{Runtime} (ds : list json) (userId : option string)
    (w : Browser) : Result Browser :=
  match ds with
  | [] => Ok w
  | d :: ds' =>
      let* w' := downloadService.save d userId w in
      save_all ds' userId w'
  end.

(** The mutating calls of [transactionService]. *)
Inductive txn_op : Type :=
  | OpSave (transaction : json)
  | OpUpdate (id : string) (updates : gmap string json)
  | OpDelete (id : string).

Definition run_op `{Runtime} (userId : option string) (o : txn_op)
    (w : Browser) : Result Browser :=
  match o with
  | OpSave t => transactionService.save t userId w
  | OpUpdate id updates => transactionService.update id updates userId w
  | OpDelete id => transactionService.delete id userId w
  end.

(** No two stored transactions have the same id. *)
Definition unique_ids (ts : list json) : Prop :=
  Forall (λ t, is_Some (txn_id t)) ts ∧ NoDup (txn_id <$> ts).

(** Callers that keep ids apart: a saved transaction carries a string id
    that is not stored yet, and a patch does not name the id. *)
Definition keeps_ids (ts : list json) (o : txn_op) : Prop :=
  match o with
  | OpSave t => ∃ i, txn_id t = Some i ∧ Some i ∉ (txn_id <$> ts)
  | OpUpdate _ updates => updates !! "id" = None
  | OpDelete _ => True
  end.

(** The stores reached from [w0] by calls that keep ids apart. *)
Inductive reachable `{Runtime} (userId : option string) (w0 : Browser)
    : Browser → Prop :=
  | reach_init : reachable userId w0 w0
  | reach_step w ts o w' :
      reachable userId w0 w →
      transactionService.getAll userId w = Ok (JArr ts) →
      keeps_ids ts o →
      run_op userId o w = Ok w' →
      reachable userId w0 w'.

(** A base key none of whose derived keys is the session key. *)
Definition apart_from_session (base : string) : Prop :=
  ∀ sfx, base +:+ sfx ≠ "transactai_auth_session".

(** ** Data of the closed examples *)

Definition iso_now : string := "2024-01-01T00:00:00.000Z".

(** The store after [authService.saveSession("+911234567890")]. *)
Definition logged_in `{Runtime} : Browser :=
  authService.saveSession iso_now "+911234567890" empty_browser.

(** A store whose transaction list and session are both malformed. *)
Definition corrupted : Browser :=
  {| has_window := true;
     localStorage := {[ "transactai_transactions" := "{bad";
                        "transactai_auth_session" := "{bad" ]} |}.

Definition fifty_one : list json := (λ i, JNum (Z.of_nat i)) <$> seq 0 51.

Definition txn_a : json :=
  JObj {[ "id" := JStr "txn_a"; "amount" := JNum 4331;
          "category" := JStr "Entertainment" ]}.

Definition txn_b : json :=
  JObj {[ "id" := JStr "txn_b"; "amount" := JNum 2389;
          "category" := JStr "Shopping" ]}.

(** The store after saving [l] as the transaction list of the default
    user. *)
Definition with_transactions `{Runtime} (l : list json) : Browser :=
  setItem "transactai_transactions" (JSON_stringify (JArr l)) empty_browser.

(** ** A concrete runtime

    A codec for the compact JSON text that [JSON.stringify] produces, and
    ASCII lower-casing. It instantiates [Runtime] for the closed examples;
    the theorems below hold for every instance. *)

Module CompactJSON.

Definition dq : ascii := "034"%char.   (* the double quote *)
Definition bs : ascii := "092"%char.   (* the backslash *)

Definition is_digit (c : ascii) : bool :=
  (48 <=? nat_of_ascii c)%nat && (nat_of_ascii c <=? 57)%nat.

Definition hex_digit (n : nat) : ascii :=
  ascii_of_nat (if (n <? 10)%nat then 48 + n else 87 + n).

Definition hex_val (c : ascii) : option nat :=
  let n := nat_of_ascii c in
  if is_digit c then Some (n - 48)
  else if (97 <=? n)%nat && (n <=? 102)%nat then Some (n - 87)
  else if (65 <=? n)%nat && (n <=? 70)%nat then Some (n - 55)
  else None.

(** *** Printing *)

Definition escape_char (c : ascii) : string :=
  let n := nat_of_ascii c in
  if Ascii.eqb c dq then String bs (String dq "")
  else if Ascii.eqb c bs then String bs (String bs "")
  else if (n =? 8)%nat then String bs "b"
  else if (n =? 9)%nat then String bs "t"
  else if (n =? 10)%nat then String bs "n"
  else if (n =? 12)%nat then String bs "f"
  else if (n =? 13)%nat then String bs "r"
  else if (n <? 32)%nat then
    String bs (String "u" (String "0" (String "0"
      (String (hex_digit (n / 16)) (String (hex_digit (n mod 16)) "")))))
  else String c "".

Fixpoint escape (s : string) : string :=
  match s with
  | EmptyString => EmptyString
  | String c s' => escape_char c +:+ escape s'
  end.

Definition quote (s : string) : string :=
  String dq (escape s +:+ String dq "").

(** Drops the separator in front of the first element. *)
Definition drop_first (s : string) : string :=
  match s with
  | EmptyString => EmptyString
  | String _ s' => s'
  end.

Definition print_member (k : string) (pv : string) (acc : string) : string :=
  "," +:+ quote k +:+ ":" +:+ pv +:+ acc.

Fixpoint print (v : json) : string :=
  match v with
  | JNull => "null"
  | JBool true => "true"
  | JBool false => "false"
  | JNum n => NilZero.string_of_int (Z.to_int n)
  | JStr s => quote s
  | JArr l =>
      "[" +:+ drop_first (foldr (λ x acc, "," +:+ print x +:+ acc) "" l) +:+ "]"
  | JObj o =>
      "{" +:+ drop_first (map_fold (λ k x acc, print_member k (print x) acc) "" o)
          +:+ "}"
  end.

(** The elements of an array and the members of an object as they are
    printed, each behind its separator. *)
Definition elements_str (l : list json) : string :=
  foldr (λ x acc, "," +:+ print x +:+ acc) "" l.

Definition members_str (l : list (string * json)) : string :=
  foldr (uncurry (λ k x acc, print_member k (print x) acc)) "" l.

(** *** Parsing *)

(** The characters of a string literal after its opening quote, and what
    follows the closing quote. *)
Fixpoint parse_chars (s : string) : option (string * string) :=
  match s with
  | EmptyString => None
  | String c r =>
      if Ascii.eqb c dq then Some (EmptyString, r)
      else if Ascii.eqb c bs then
        match r with
        | EmptyString => None
        | String e r1 =>
            let simple (x : ascii) :=
              '(t, r') ← parse_chars r1; Some (String x t, r') in
            if Ascii.eqb e dq || Ascii.eqb e bs || Ascii.eqb e "/" then simple e
            else if Ascii.eqb e "b" then simple (ascii_of_nat 8)
            else if Ascii.eqb e "t" then simple (ascii_of_nat 9)
            else if Ascii.eqb e "n" then simple (ascii_of_nat 10)
            else if Ascii.eqb e "f" then simple (ascii_of_nat 12)
            else if Ascii.eqb e "r" then simple (ascii_of_nat 13)
            else if Ascii.eqb e "u" then
              match r1 with
              | String "0" (String "0" (String h1 (String h2 r2))) =>
                  match hex_val h1, hex_val h2 with
                  | Some a, Some b =>
                      if (a <? 8)%nat then
                        '(t, r') ← parse_chars r2;
                        Some (String (ascii_of_nat (16 * a + b)) t, r')
                      else None
                  | _, _ => None
                  end
              | _ => None
              end
            else None
        end
      else if (nat_of_ascii c <? 32)%nat then None
      else '(t, r') ← parse_chars r; Some (String c t, r')
  end.

(** What may follow a number: the end of the text or a character that
    is not a digit. *)
Definition delimited (s : string) : Prop :=
  match s with
  | EmptyString => True
  | String c _ => is_digit c = false
  end.

Fixpoint span_digits (s : string) : string * string :=
  match s with
  | EmptyString => (EmptyString, EmptyString)
  | String c r =>
      if is_digit c then
        let '(d, r') := span_digits r in (String c d, r')
      else (EmptyString, s)
  end.

(** An optional minus sign and the digits that follow it. *)
Definition span_number (s : string) : string * string :=
  match s with
  | EmptyString => (EmptyString, EmptyString)
  | String c r =>
      if Ascii.eqb c "-" then
        let '(d, r') := span_digits r in (String c d, r')
      else span_digits s
  end.

Definition parse_number (s : string) : option (json * string) :=
  let '(tok, r) := span_number s in
  i ← NilZero.int_of_string tok;
  Some (JNum (Z.of_int i), r).

(** [strip_prefix p s] is what follows [p] in [s]. *)
Fixpoint strip_prefix (p s : string) : option string :=
  match p, s with
  | EmptyString, _ => Some s
  | String a p', String b s' =>
      if Ascii.eqb a b then strip_prefix p' s' else None
  | _, _ => None
  end.

Definition starts_with (c : ascii) (s : string) : bool :=
  match s with
  | EmptyString => false
  | String x _ => Ascii.eqb x c
  end.

Fixpoint parse_value (fuel : nat) (s : string) : option (json * string) :=
  match fuel with
  | O => None
  | S n =>
      match s with
      | EmptyString => None
      | String c r =>
          if is_digit c || Ascii.eqb c "-" then parse_number s
          else if Ascii.eqb c "n" then
            r' ← strip_prefix "ull" r; Some (JNull, r')
          else if Ascii.eqb c "t" then
            r' ← strip_prefix "rue" r; Some (JBool true, r')
          else if Ascii.eqb c "f" then
            r' ← strip_prefix "alse" r; Some (JBool false, r')
          else if Ascii.eqb c dq then
            '(t, r') ← parse_chars r; Some (JStr t, r')
          else if Ascii.eqb c "[" then
            if starts_with "]" r then Some (JArr [], drop_first r)
            else
              '(v, r1) ← parse_value n r;
              '(vs, r2) ← parse_elements n r1;
              Some (JArr (v :: vs), r2)
          else if Ascii.eqb c "{" then
            if starts_with "}" r then Some (JObj ∅, drop_first r)
            else
              '(kvs, r1) ← parse_members n (String "," r);
              Some (JObj (list_to_map (reverse kvs)), r1)
          else None
      end
  end
(** The elements after the first one, up to the closing bracket. *)
with parse_elements (fuel : nat) (s : string) : option (list json * string) :=
  match fuel with
  | O => None
  | S n =>
      match s with
      | EmptyString => None
      | String c r =>
          if Ascii.eqb c "]" then Some ([], r)
          else if Ascii.eqb c "," then
            '(v, r1) ← parse_value n r;
            '(vs, r2) ← parse_elements n r1;
            Some (v :: vs, r2)
          else None
      end
  end
(** Members, each behind a comma, up to the closing brace; a later
    member overrides an earlier one of the same name. *)
with parse_members (fuel : nat) (s : string)
    : option (list (string * json) * string) :=
  match fuel with
  | O => None
  | S n =>
      match s with
      | EmptyString => None
      | String c r =>
          if Ascii.eqb c "}" then Some ([], r)
          else if Ascii.eqb c "," then
            r0 ← strip_prefix (String dq "") r;
            '(k, r1) ← parse_chars r0;
            r2 ← strip_prefix ":" r1;
            '(v, r3) ← parse_value n r2;
            '(kvs, r4) ← parse_members n r3;
            Some ((k, v) :: kvs, r4)
          else None
      end
  end.

Definition parse_text (s : string) : option json :=
  match parse_value (S (String.length s)) s with
  | Some (v, EmptyString) => Some v
  | _ => None
  end.

(** *** ASCII lower-casing *)

Definition lower_ascii (c : ascii) : ascii :=
  let n := nat_of_ascii c in
  if (65 <=? n)%nat && (n <=? 90)%nat then ascii_of_nat (n + 32) else c.

Fixpoint lower (s : string) : string :=
  match s with
  | EmptyString => EmptyString
  | String c s' => String (lower_ascii c) (lower s')
  end.

End CompactJSON.

(** * Facts about strings *)

Lemma append_cons (x : ascii) (a b : string) :
  String x a +:+ b = String x (a +:+ b).
Proof. reflexivity. Qed.

Lemma append_nil (b : string) : "" +:+ b = b.
Proof. reflexivity. Qed.

Lemma append_assoc (a b c : string) : (a +:+ b) +:+ c = a +:+ (b +:+ c).
Proof.
  induction a as [|x a IH]; [done|]. rewrite !append_cons. by f_equal.
Qed.

Lemma length_append (a b : string) :
  String.length (a +:+ b) = String.length a + String.length b.
Proof.
  induction a as [|x a IH]; [done|]. rewrite append_cons. simpl. by f_equal.
Qed.

Lemma append_empty_r (a : string) : a +:+ "" = a.
Proof.
  induction a as [|x a IH]; [done|]. rewrite append_cons. by f_equal.
Qed.

(** * Correctness of the concrete codec *)

Module CompactJSONFacts.
Import CompactJSON.

Lemma parse_chars_escape_char c s :
  parse_chars (escape_char c +:+ s) =
  '(t, r) ← parse_chars s; Some (String c t, r).
Proof. destruct c as [[] [] [] [] [] [] [] []]; reflexivity. Qed.

Lemma parse_chars_escape s rest :
  parse_chars (escape s +:+ String dq rest) = Some (s, rest).
Proof.
  induction s as [|c s IH]; [done|].
  cbn [escape]. rewrite append_assoc, parse_chars_escape_char, IH. done.
Qed.

Lemma span_digits_uint d rest :
  delimited rest →
  span_digits (NilEmpty.string_of_uint d +:+ rest) = (NilEmpty.string_of_uint d, rest).
Proof.
  intros Hr. induction d; simpl; rewrite ?IHd; try done.
  destruct rest as [|c r]; [done|]. simpl in *. by rewrite Hr.
Qed.

Lemma span_digits_nzuint d rest :
  delimited rest →
  span_digits (NilZero.string_of_uint d +:+ rest) = (NilZero.string_of_uint d, rest).
Proof.
  intros Hr. destruct d; try apply (span_digits_uint _ _ Hr).
  simpl. destruct rest as [|c r]; [done|]. simpl in *. by rewrite Hr.
Qed.

Lemma nzuint_head d :
  ∃ c r, NilZero.string_of_uint d = String c r ∧ is_digit c = true.
Proof. destruct d; simpl; eauto. Qed.

Lemma parse_number_print z rest :
  delimited rest →
  parse_number (NilZero.string_of_int (Z.to_int z) +:+ rest) = Some (JNum z, rest).
Proof.
  intros Hr. unfold parse_number.
  assert (Hi : NilZero.int_of_string (NilZero.string_of_int (Z.to_int z))
               = Some (Z.to_int z)).
  { apply NilZero.isi; destruct z; simpl; try discriminate;
      intros [= E]; by apply Unsigned.to_uint_nonnil in E. }
  assert (Hs : span_number (NilZero.string_of_int (Z.to_int z) +:+ rest)
               = (NilZero.string_of_int (Z.to_int z), rest)).
  { destruct (Z.to_int z) as [d|d]; simpl.
    - destruct (nzuint_head d) as (c & r & E & Hc).
      pose proof (span_digits_nzuint d rest Hr) as Hsp.
      rewrite E in *. simpl in *.
      destruct (Ascii.eqb_spec c "-") as [->|]; [done|]. done.
    - by rewrite span_digits_nzuint. }
  rewrite Hs, Hi. simpl. by rewrite DecimalZ.of_to.
Qed.

Lemma print_number_head z :
  ∃ c r, NilZero.string_of_int (Z.to_int z) = String c r
         ∧ is_digit c || Ascii.eqb c "-" = true.
Proof.
  destruct (Z.to_int z) as [d|d]; simpl.
  - destruct (nzuint_head d) as (c & r & -> & Hc). exists c, r. by rewrite Hc.
  - eauto.
Qed.

Lemma print_arr l :
  print (JArr l) = "[" +:+ drop_first (elements_str l) +:+ "]".
Proof. reflexivity. Qed.

Lemma print_obj o :
  print (JObj o) = "{" +:+ drop_first (members_str (map_to_list o)) +:+ "}".
Proof. cbn [print]. by rewrite map_fold_foldr. Qed.

Lemma print_head v :
  ∃ c r, print v = String c r ∧ Ascii.eqb c "]" = false.
Proof.
  destruct v as [|[]|z|s|l|o]; try (by eexists _, _).
  - destruct (print_number_head z) as (c & r & E & Hc).
    exists c, r. split; [done|].
    destruct (Ascii.eqb_spec c "]") as [->|]; done.
Qed.

Lemma elements_delimited l rest :
  delimited (elements_str l +:+ String "]" rest).
Proof. by destruct l. Qed.

Lemma members_delimited l rest :
  delimited (members_str l +:+ String "}" rest).
Proof. by destruct l as [|[]]. Qed.

Lemma parse_value_str n r :
  parse_value (S n) (String dq r) = '(t, r') ← parse_chars r; Some (JStr t, r').
Proof. reflexivity. Qed.

Lemma parse_value_arr n r :
  parse_value (S n) (String "[" r) =
    if starts_with "]" r then Some (JArr [], drop_first r)
    else
      '(v, r1) ← parse_value n r;
      '(vs, r2) ← parse_elements n r1;
      Some (JArr (v :: vs), r2).
Proof. reflexivity. Qed.

Lemma parse_value_obj n r :
  parse_value (S n) (String "{" r) =
    if starts_with "}" r then Some (JObj ∅, drop_first r)
    else
      '(kvs, r1) ← parse_members n (String "," r);
      Some (JObj (list_to_map (reverse kvs)), r1).
Proof. reflexivity. Qed.

Lemma parse_value_num n c r :
  is_digit c || Ascii.eqb c "-" = true →
  parse_value (S n) (String c r) = parse_number (String c r).
Proof. intros Hc. cbn [parse_value]. by rewrite Hc. Qed.

Lemma parse_elements_comma n r :
  parse_elements (S n) (String "," r) =
    '(v, r1) ← parse_value n r;
    '(vs, r2) ← parse_elements n r1;
    Some (v :: vs, r2).
Proof. reflexivity. Qed.

Lemma parse_members_comma n r :
  parse_members (S n) (String "," (String dq r)) =
    '(k, r1) ← parse_chars r;
    r2 ← strip_prefix ":" r1;
    '(v, r3) ← parse_value n r2;
    '(kvs, r4) ← parse_members n r3;
    Some ((k, v) :: kvs, r4).
Proof. reflexivity. Qed.

Lemma list_to_map_reverse_to_list (o : gmap string json) :
  list_to_map (reverse (map_to_list o)) = o.
Proof.
  transitivity (list_to_map (M:=gmap string json) (map_to_list o));
    [|apply list_to_map_to_list].
  symmetry. apply list_to_map_proper; [apply NoDup_fst_map_to_list|].
  symmetry. apply reverse_Permutation.
Qed.

Lemma elements_str_cons x xs :
  elements_str (x :: xs) = String "," (print x +:+ elements_str xs).
Proof. reflexivity. Qed.

Lemma members_str_cons k x l :
  members_str ((k, x) :: l) =
  String "," (String dq (escape k +:+ String dq (String ":" (print x +:+ members_str l)))).
Proof.
  cbn [members_str foldr uncurry]. unfold print_member, quote.
  by rewrite !append_cons, !append_nil, !append_assoc, !append_cons, !append_nil.
Qed.

Ltac str_norm :=
  repeat (rewrite append_assoc || rewrite append_cons || rewrite append_nil).

Ltac len_norm H :=
  repeat first
    [ rewrite append_assoc in H | rewrite append_cons in H
    | rewrite append_nil in H | rewrite length_append in H
    | progress cbn [String.length drop_first] in H ].

Lemma parse_print_fuel n :
  (∀ v rest, String.length (print v) < n → delimited rest →
     parse_value n (print v +:+ rest) = Some (v, rest)) ∧
  (∀ l rest, String.length (elements_str l) < n →
     parse_elements n (elements_str l +:+ String "]" rest) = Some (l, rest)) ∧
  (∀ l rest, String.length (members_str l) < n →
     parse_members n (members_str l +:+ String "}" rest) = Some (l, rest)).
Proof.
  induction n as [|n (IHv & IHe & IHm)]; [repeat split; intros; lia|].
  repeat split.
  - intros v rest Hlen Hrest. destruct v as [|[]|z|s|l|o].
    + reflexivity.
    + reflexivity.
    + reflexivity.
    + destruct (print_number_head z) as (c & r & E & Hc).
      cbn [print]. rewrite <-(parse_number_print z rest Hrest).
      rewrite E, append_cons. by apply parse_value_num.
    + cbn [print]. unfold quote. str_norm.
      by rewrite parse_value_str, parse_chars_escape.
    + rewrite print_arr in *. destruct l as [|x xs]; [reflexivity|].
      rewrite elements_str_cons in *. cbn [drop_first] in *. str_norm.
      len_norm Hlen. rewrite parse_value_arr.
      destruct (print_head x) as (c & r & E & Hc).
      replace (starts_with "]" _) with false
        by (by rewrite E, append_cons; cbn; rewrite Hc).
      rewrite IHv by (lia || apply elements_delimited). cbn.
      rewrite IHe by lia. done.
    + rewrite print_obj in *.
      destruct (map_to_list o) as [|[k x] l] eqn:El.
      { apply map_to_list_empty_iff in El as ->. reflexivity. }
      assert (Eo : list_to_map (reverse ((k, x) :: l)) = o)
        by (rewrite <-El; apply list_to_map_reverse_to_list).
      specialize (IHm ((k, x) :: l) rest).
      rewrite members_str_cons in *. cbn [drop_first] in *. str_norm.
      len_norm Hlen. rewrite parse_value_obj.
      replace (starts_with "}" _) with false by done.
      len_norm IHm. rewrite IHm by lia. rewrite <-Eo. reflexivity.
  - intros l rest Hlen. destruct l as [|x xs]; [reflexivity|].
    rewrite elements_str_cons in *. str_norm. len_norm Hlen.
    rewrite parse_elements_comma.
    rewrite IHv by (lia || apply elements_delimited). cbn.
    rewrite IHe by lia. done.
  - intros l rest Hlen. destruct l as [|[k x] l]; [reflexivity|].
    rewrite members_str_cons in *. str_norm. len_norm Hlen.
    rewrite parse_members_comma, parse_chars_escape. cbn.
    rewrite IHv by (lia || apply members_delimited). cbn.
    rewrite IHm by lia. done.
Qed.

Theorem parse_text_print v : parse_text (print v) = Some v.
Proof.
  unfold parse_text.
  destruct (parse_print_fuel (S (String.length (print v)))) as (Hv & _ & _).
  specialize (Hv v "" ltac:(lia) I).
  rewrite append_empty_r in Hv. by rewrite Hv.
Qed.

Lemma parse_text_empty : parse_text "" = None.
Proof. reflexivity. Qed.

End CompactJSONFacts.

#[global] Instance compact_runtime : Runtime := {|
  JSON_stringify := CompactJSON.print;
  JSON_parse := CompactJSON.parse_text;
  toLowerCase := CompactJSON.lower;
  JSON_parse_stringify := CompactJSONFacts.parse_text_print;
  JSON_parse_empty := CompactJSONFacts.parse_text_empty;
|}.
(** * Facts about the store and key derivation *)

Ltac unfold_keys :=
  unfold STORAGE_KEYS.USER_PROFILE, STORAGE_KEYS.TRANSACTIONS,
    STORAGE_KEYS.CATEGORIES, STORAGE_KEYS.PIN, STORAGE_KEYS.AUTH_SESSION,
    STORAGE_KEYS.DOWNLOADS in *.

Section storage_facts.
Context `{Runtime}.

Lemma nonempty_stringify v : nonempty (JSON_stringify v) = true.
Proof.
  destruct (JSON_stringify v) eqn:E; [|done].
  pose proof (JSON_parse_stringify v) as Hp.
  rewrite E, JSON_parse_empty in Hp. discriminate.
Qed.

Lemma parse_or_stringify v d : parse_or (Some (JSON_stringify v)) d = Ok v.
Proof.
  unfold parse_or, parse.
  by rewrite nonempty_stringify, JSON_parse_stringify.
Qed.

Lemma parse_or_malformed s d :
  s ≠ "" → JSON_parse s = None → parse_or (Some s) d = Throw SyntaxError.
Proof.
  intros Hs Hp. unfold parse_or, parse. rewrite Hp. by destruct s.
Qed.

Lemma getItem_setItem k v w : getItem (setItem k v w) k = Some v.
Proof. apply lookup_insert_eq. Qed.

Lemma getItem_setItem_ne k k' v w :
  k ≠ k' → getItem (setItem k v w) k' = getItem w k'.
Proof. intros. by apply lookup_insert_ne. Qed.

Lemma session_key_setItem base k v w :
  k ≠ "transactai_auth_session" →
  session_key base (setItem k v w) = session_key base w.
Proof. intros Hk. unfold session_key. by rewrite getItem_setItem_ne. Qed.

Lemma getUserKey_setItem base userId k v w :
  k ≠ "transactai_auth_session" →
  getUserKey base userId (setItem k v w) = getUserKey base userId w.
Proof.
  intros Hk. unfold getUserKey. by rewrite session_key_setItem.
Qed.

Lemma getUserKey_explicit base userId w :
  truthy userId = true →
  getUserKey base userId w = base +:+ "_" +:+ or_str userId "".
Proof. intros Hu. unfold getUserKey. by rewrite Hu. Qed.

(** Every derived key extends its base key. *)
Lemma getUserKey_prefix base userId w :
  ∃ sfx, getUserKey base userId w = base +:+ sfx.
Proof.
  unfold getUserKey, session_key.
  destruct (truthy userId); [by eexists|].
  destruct (negb (has_window w)); [by exists ""; rewrite append_empty_r|].
  destruct (getItem w "transactai_auth_session") as [s|];
    [|by exists ""; rewrite append_empty_r].
  destruct (nonempty s); [|by exists ""; rewrite append_empty_r].
  destruct (parse s) as [v|]; [|by exists ""; rewrite append_empty_r].
  cbn [bind]. destruct (stripped_phone v) as [p|];
    [by eexists|by exists ""; rewrite append_empty_r].
Qed.

Lemma getUserKey_not_session base userId w :
  apart_from_session base →
  getUserKey base userId w ≠ "transactai_auth_session".
Proof.
  intros Hb. destruct (getUserKey_prefix base userId w) as [sfx ->]. apply Hb.
Qed.

(** Writing a value under a derived key and reading the key back. *)
Lemma read_after_write base userId w v d :
  apart_from_session base →
  let w' := setItem (getUserKey base userId w) (JSON_stringify v) w in
  parse_or (getItem w' (getUserKey base userId w')) d = Ok v.
Proof.
  intros Hb w'. unfold w'.
  rewrite getUserKey_setItem by by apply getUserKey_not_session.
  by rewrite getItem_setItem, parse_or_stringify.
Qed.

End storage_facts.

Lemma profile_apart : apart_from_session STORAGE_KEYS.USER_PROFILE.
Proof. intros sfx. unfold STORAGE_KEYS.USER_PROFILE. rewrite !append_cons. discriminate. Qed.

Lemma transactions_apart : apart_from_session STORAGE_KEYS.TRANSACTIONS.
Proof. intros sfx. unfold STORAGE_KEYS.TRANSACTIONS. rewrite !append_cons. discriminate. Qed.

Lemma categories_apart : apart_from_session STORAGE_KEYS.CATEGORIES.
Proof. intros sfx. unfold STORAGE_KEYS.CATEGORIES. rewrite !append_cons. discriminate. Qed.

Lemma downloads_apart : apart_from_session STORAGE_KEYS.DOWNLOADS.
Proof. intros sfx. unfold STORAGE_KEYS.DOWNLOADS. rewrite !append_cons. discriminate. Qed.
(** * Key derivation *)

Section key_derivation.
Context `{Runtime}.

Lemma getUserKey_no_session base userId w :
  truthy userId = false →
  getItem w "transactai_auth_session" = None →
  getUserKey base userId w = base.
Proof.
  intros Hu Hs. unfold getUserKey, session_key. rewrite Hu, Hs.
  by destruct (negb (has_window w)).
Qed.

Lemma getUserKey_malformed_session base userId w s :
  truthy userId = false →
  getItem w "transactai_auth_session" = Some s →
  JSON_parse s = None →
  getUserKey base userId w = base.
Proof.
  intros Hu Hs Hp. unfold getUserKey, session_key, parse. rewrite Hu, Hs, Hp.
  destruct (negb (has_window w)); [done|]. by destruct (nonempty s).
Qed.

End key_derivation.

Lemma logged_in_session :
  getItem logged_in "transactai_auth_session" =
    Some (JSON_stringify
            (JObj {[ "phone" := JStr "+911234567890"; "timestamp" := JStr iso_now ]})).
Proof. reflexivity. Qed.

(** C1 (as stated) fails for the PIN: with the session of "+911234567890"
    stored and no explicit user id, [pinService.save] writes the bare key
    and leaves the key suffixed with the phone absent, while the derived
    key of every other kind carries the phone. *)
Lemma pin_key_ignores_session :
  getUserKey "transactai_pin" None logged_in = "transactai_pin_911234567890" ∧
  getItem (pinService.save "4321" None logged_in) "transactai_pin_911234567890"
    = None ∧
  getItem (pinService.save "4321" None logged_in) "transactai_pin"
    = Some "4321".
Proof.
  split; [|split].
  - vm_compute. reflexivity.
  - vm_compute. reflexivity.
  - vm_compute. reflexivity.
Qed.

(** * Malformed stored JSON *)

(** C2 (as amended). A read whose resolved key holds a non-empty string
    that is not JSON throws the [SyntaxError] of [JSON.parse] to its
    caller: [getProfile], the three [getAll], [getSession] and the reads
    derived from [getAll]. Malformed JSON under the session key read
    during key derivation is caught inside [getUserKey], which then
    returns the bare base key. *)
Theorem malformed_json_propagates `{Runtime} (userId : option string)
    (w : Browser) (s : string) :
  has_window w = true →
  s ≠ "" →
  JSON_parse s = None →
  (getItem w (getUserKey "transactai_user_profile" userId w) = Some s →
     userService.getProfile userId w = Throw SyntaxError) ∧
  (getItem w (getUserKey "transactai_transactions" userId w) = Some s →
     transactionService.getAll userId w = Throw SyntaxError ∧
     ∀ c, transactionService.getByCategory c userId w = Throw SyntaxError) ∧
  (getItem w (getUserKey "transactai_categories" userId w) = Some s →
     categoryService.getAll userId w = Throw SyntaxError ∧
     categoryService.getNames userId w = Throw SyntaxError) ∧
  (getItem w (getUserKey "transactai_downloads" userId w) = Some s →
     downloadService.getAll userId w = Throw SyntaxError) ∧
  (getItem w "transactai_auth_session" = Some s →
     authService.getSession w = Throw SyntaxError ∧
     ∀ base, truthy userId = false → getUserKey base userId w = base).
Proof.
  intros Hw Hs Hp. repeat apply conj.
  - intros Hk. unfold userService.getProfile. unfold_keys.
    rewrite Hw, Hk. by apply parse_or_malformed.
  - intros Hk. assert (Hg : transactionService.getAll userId w = Throw SyntaxError).
    { unfold transactionService.getAll. unfold_keys. rewrite Hw, Hk.
      by apply parse_or_malformed. }
    split; [done|]. intros c. unfold transactionService.getByCategory.
    by rewrite Hg.
  - intros Hk. assert (Hg : categoryService.getAll userId w = Throw SyntaxError).
    { unfold categoryService.getAll. unfold_keys. rewrite Hw, Hk.
      by apply parse_or_malformed. }
    split; [done|]. unfold categoryService.getNames. by rewrite Hg.
  - intros Hk. unfold downloadService.getAll. unfold_keys. rewrite Hw, Hk.
    by apply parse_or_malformed.
  - intros Hk. split.
    + unfold authService.getSession. unfold_keys. rewrite Hw, Hk. by apply parse_or_malformed.
    + intros base Hu. by apply (getUserKey_malformed_session base userId w s).
Qed.

Lemma malformed_json_propagates_witness :
  transactionService.getAll None corrupted = Throw SyntaxError ∧
  authService.getSession corrupted = Throw SyntaxError.
Proof.
  pose proof (malformed_json_propagates None corrupted "{bad"
                eq_refl ltac:(discriminate) eq_refl)
    as (_ & Htxn & _ & _ & Hsession).
  split.
  - apply Htxn. reflexivity.
  - apply Hsession. reflexivity.
Defined.

(** C2 (as stated) fails for the session read during key derivation: with
    malformed JSON under the session key, [getAll] returns an empty list
    instead of a parse failure. *)
Lemma malformed_session_is_caught :
  let w := {| has_window := true;
              localStorage := {[ "transactai_auth_session" := "{bad" ]} |} in
  JSON_parse "{bad" = None ∧
  transactionService.getAll None w = Ok (JArr []) ∧
  userService.getProfile None w = Ok JNull.
Proof. repeat split. Qed.

(** * Reads on missing data *)

(** C8. Without a browser storage environment every read returns the
    empty list or [null]; with one, a read whose resolved key is absent
    returns the empty list (collections) or [null] (profile, PIN,
    session). No case throws. *)
Theorem reads_never_fail `{Runtime} (userId : option string) (w : Browser) :
  (has_window w = false →
     userService.getProfile userId w = Ok JNull ∧
     transactionService.getAll userId w = Ok (JArr []) ∧
     (∀ c, transactionService.getByCategory c userId w = Ok []) ∧
     categoryService.getAll userId w = Ok (JArr []) ∧
     categoryService.getNames userId w = Ok [] ∧
     downloadService.getAll userId w = Ok (JArr []) ∧
     pinService.get userId w = None ∧
     authService.getSession w = Ok JNull) ∧
  (has_window w = true →
     (getItem w (getUserKey "transactai_user_profile" userId w) = None →
        userService.getProfile userId w = Ok JNull) ∧
     (getItem w (getUserKey "transactai_transactions" userId w) = None →
        transactionService.getAll userId w = Ok (JArr []) ∧
        ∀ c, transactionService.getByCategory c userId w = Ok []) ∧
     (getItem w (getUserKey "transactai_categories" userId w) = None →
        categoryService.getAll userId w = Ok (JArr []) ∧
        categoryService.getNames userId w = Ok []) ∧
     (getItem w (getUserKey "transactai_downloads" userId w) = None →
        downloadService.getAll userId w = Ok (JArr [])) ∧
     (getItem w (pinService.key userId) = None →
        pinService.get userId w = None) ∧
     (getItem w "transactai_auth_session" = None →
        authService.getSession w = Ok JNull)).
Proof.
  split; intros Hw.
  - unfold userService.getProfile, transactionService.getByCategory,
      transactionService.getAll, categoryService.getNames,
      categoryService.getAll, downloadService.getAll, pinService.get,
      authService.getSession.
    rewrite Hw. by repeat split.
  - unfold userService.getProfile, transactionService.getByCategory,
      transactionService.getAll, categoryService.getNames,
      categoryService.getAll, downloadService.getAll, pinService.get,
      authService.getSession.
    unfold_keys. rewrite Hw. cbn [negb].
    repeat apply conj; intros ->; by repeat split.
Qed.

Lemma reads_never_fail_witness :
  transactionService.getAll None {| has_window := false; localStorage := ∅ |}
    = Ok (JArr []) ∧
  userService.getProfile None empty_browser = Ok JNull ∧
  transactionService.getAll None empty_browser = Ok (JArr []) ∧
  categoryService.getAll None empty_browser = Ok (JArr []) ∧
  downloadService.getAll None empty_browser = Ok (JArr []) ∧
  pinService.get None empty_browser = None ∧
  authService.getSession empty_browser = Ok JNull.
Proof.
  pose proof (reads_never_fail None {| has_window := false; localStorage := ∅ |})
    as [Hno _].
  pose proof (reads_never_fail None empty_browser)
    as [_ Hyes].
  destruct (Hno eq_refl) as (_ & Ht & _).
  destruct (Hyes eq_refl) as (Hp & Htx & Hc & Hd & Hpin & Hs).
  split; [exact Ht|].
  split; [exact (Hp eq_refl)|].
  split; [exact (proj1 (Htx eq_refl))|].
  split; [exact (proj1 (Hc eq_refl))|].
  split; [exact (Hd eq_refl)|].
  split; [exact (Hpin eq_refl)|exact (Hs eq_refl)].
Defined.

(** * Array methods on lists of objects *)

Section array_facts.
Context {A : Type}.

Lemma filter_r_pure (p : A → Result bool) (P : A → Prop)
    `{∀ x, Decision (P x)} (l : list A) :
  Forall (λ x, p x = Ok (bool_decide (P x))) l →
  filter_r p l = Ok (filter P l).
Proof.
  induction 1 as [|x l Hx _ IH]; [done|].
  cbn [filter_r]. rewrite Hx, IH. cbn [bind].
  rewrite filter_cons. by case_bool_decide; case_decide.
Qed.

Lemma find_r_pure (p : A → Result bool) (P : A → Prop)
    `{∀ x, Decision (P x)} (l : list A) :
  Forall (λ x, p x = Ok (bool_decide (P x))) l →
  find_r p l = Ok (snd <$> list_find P l).
Proof.
  induction 1 as [|x l Hx _ IH]; [done|].
  cbn [find_r list_find]. rewrite Hx. cbn [bind].
  case_bool_decide; case_decide; try done.
  rewrite IH. by destruct (list_find P l) as [[]|].
Qed.

Lemma findIndex_r_pure (p : A → Result bool) (P : A → Prop)
    `{∀ x, Decision (P x)} (l : list A) :
  Forall (λ x, p x = Ok (bool_decide (P x))) l →
  findIndex_r p l = Ok (fst <$> list_find P l).
Proof.
  induction 1 as [|x l Hx _ IH]; [done|].
  cbn [findIndex_r list_find]. rewrite Hx. cbn [bind].
  case_bool_decide; case_decide; try done.
  rewrite IH. cbn [bind]. by destruct (list_find P l) as [[]|].
Qed.

End array_facts.

Section predicate_facts.
Context `{Runtime}.

Lemma has_id_object id t :
  is_object t →
  transactionService.has_id id t = Ok (bool_decide (txn_id t = Some id)).
Proof.
  intros [o ->]. unfold transactionService.has_id, txn_id, str_field.
  cbn [prop bind]. f_equal.
  destruct (o !! "id") as [[| | |s| |]|]; cbn [is_str];
    try (by rewrite bool_decide_eq_false_2).
  apply bool_decide_ext. split; congruence.
Qed.

Lemma other_id_object id t :
  is_object t →
  (let* b := transactionService.has_id id t in Ok (negb b))
  = Ok (bool_decide (txn_id t ≠ Some id)).
Proof.
  intros Ht. rewrite has_id_object by done. cbn [bind]. f_equal.
  by rewrite bool_decide_not.
Qed.

Lemma other_name_object n c :
  is_object c →
  categoryService.other_name n c = Ok (bool_decide (category_name c ≠ Some n)).
Proof.
  intros [o ->]. unfold categoryService.other_name, category_name, str_field.
  cbn [prop bind]. f_equal. rewrite bool_decide_not. f_equal.
  destruct (o !! "name") as [[| | |s| |]|]; cbn [is_str];
    try (by rewrite bool_decide_eq_false_2).
  apply bool_decide_ext. split; congruence.
Qed.

Lemma same_name_ci_named n c m :
  category_name c = Some m →
  categoryService.same_name_ci n c
  = Ok (bool_decide (toLowerCase m = toLowerCase n)).
Proof.
  unfold category_name, str_field, categoryService.same_name_ci, lower_name.
  destruct c as [| | | | |o]; try done. cbn [prop bind].
  destruct (o !! "name") as [[| | |s| |]|]; try done. by intros [= ->].
Qed.

End predicate_facts.

(** * One call of each mutating operation *)

Section step_facts.
Context `{Runtime}.

Lemma has_window_setItem k v w : has_window (setItem k v w) = has_window w.
Proof. reflexivity. Qed.

Lemma txn_getAll_written userId w v :
  has_window w = true →
  transactionService.getAll userId
    (setItem (getUserKey "transactai_transactions" userId w) (JSON_stringify v) w)
  = Ok v.
Proof.
  intros Hw. unfold transactionService.getAll. unfold_keys.
  rewrite has_window_setItem, Hw. apply read_after_write, transactions_apart.
Qed.

Lemma category_getAll_written userId w v :
  has_window w = true →
  categoryService.getAll userId
    (setItem (getUserKey "transactai_categories" userId w) (JSON_stringify v) w)
  = Ok v.
Proof.
  intros Hw. unfold categoryService.getAll. unfold_keys.
  rewrite has_window_setItem, Hw. apply read_after_write, categories_apart.
Qed.

Lemma download_getAll_written userId w v :
  has_window w = true →
  downloadService.getAll userId
    (setItem (getUserKey "transactai_downloads" userId w) (JSON_stringify v) w)
  = Ok v.
Proof.
  intros Hw. unfold downloadService.getAll. unfold_keys.
  rewrite has_window_setItem, Hw. apply read_after_write, downloads_apart.
Qed.

Lemma profile_written userId w v :
  has_window w = true →
  userService.getProfile userId
    (setItem (getUserKey "transactai_user_profile" userId w) (JSON_stringify v) w)
  = Ok v.
Proof.
  intros Hw. unfold userService.getProfile. unfold_keys.
  rewrite has_window_setItem, Hw. apply read_after_write, profile_apart.
Qed.

Lemma txn_save_step t userId w l :
  has_window w = true →
  transactionService.getAll userId w = Ok (JArr l) →
  ∃ w', transactionService.save t userId w = Ok w' ∧
        has_window w' = true ∧
        transactionService.getAll userId w' = Ok (JArr (l ++ [t])).
Proof.
  intros Hw Hg. eexists. unfold transactionService.save.
  rewrite Hw, Hg. cbn [negb bind as_array]. unfold_keys.
  split; [done|]. split; [done|]. by apply txn_getAll_written.
Qed.

Lemma txn_update_found id updates userId w l k t :
  has_window w = true →
  transactionService.getAll userId w = Ok (JArr l) →
  findIndex_r (transactionService.has_id id) l = Ok (Some k) →
  l !! k = Some t →
  ∃ w', transactionService.update id updates userId w = Ok w' ∧
        has_window w' = true ∧
        transactionService.getAll userId w'
          = Ok (JArr (<[k := transactionService.merge t updates]> l)).
Proof.
  intros Hw Hg Hi Hk. eexists. unfold transactionService.update.
  rewrite Hw, Hg. cbn [negb bind as_array]. rewrite Hi. cbn [bind].
  rewrite Hk. unfold_keys.
  split; [done|]. split; [done|]. by apply txn_getAll_written.
Qed.

Lemma txn_update_missing id updates userId w l :
  transactionService.getAll userId w = Ok (JArr l) →
  findIndex_r (transactionService.has_id id) l = Ok None →
  transactionService.update id updates userId w = Ok w.
Proof.
  intros Hg Hi. unfold transactionService.update.
  destruct (negb (has_window w)); [done|].
  rewrite Hg. cbn [bind as_array]. by rewrite Hi.
Qed.

Lemma txn_delete_step id userId w l l' :
  has_window w = true →
  transactionService.getAll userId w = Ok (JArr l) →
  filter_r (λ t, let* b := transactionService.has_id id t in Ok (negb b)) l
    = Ok l' →
  ∃ w', transactionService.delete id userId w = Ok w' ∧
        has_window w' = true ∧
        transactionService.getAll userId w' = Ok (JArr l').
Proof.
  intros Hw Hg Hf. eexists. unfold transactionService.delete.
  rewrite Hw, Hg. cbn [negb bind as_array]. rewrite Hf. cbn [bind].
  unfold_keys. split; [done|]. split; [done|]. by apply txn_getAll_written.
Qed.

Lemma category_add_new now n userId w l :
  has_window w = true →
  categoryService.getAll userId w = Ok (JArr l) →
  find_r (categoryService.same_name_ci n) l = Ok None →
  ∃ w', categoryService.add now n userId w = Ok w' ∧
        has_window w' = true ∧
        categoryService.getAll userId w' = Ok (JArr (l ++ [new_category now n])).
Proof.
  intros Hw Hg Hf. eexists. unfold categoryService.add.
  rewrite Hw, Hg. cbn [negb bind as_array]. rewrite Hf. cbn [bind].
  unfold_keys. split; [done|]. split; [done|].
  by apply category_getAll_written.
Qed.

Lemma category_add_found now n userId w l c :
  categoryService.getAll userId w = Ok (JArr l) →
  find_r (categoryService.same_name_ci n) l = Ok (Some c) →
  categoryService.add now n userId w = Ok w.
Proof.
  intros Hg Hf. unfold categoryService.add.
  destruct (negb (has_window w)); [done|].
  rewrite Hg. cbn [bind as_array]. by rewrite Hf.
Qed.

Lemma category_remove_step n userId w l l' :
  has_window w = true →
  categoryService.getAll userId w = Ok (JArr l) →
  filter_r (categoryService.other_name n) l = Ok l' →
  ∃ w', categoryService.remove n userId w = Ok w' ∧
        has_window w' = true ∧
        categoryService.getAll userId w' = Ok (JArr l').
Proof.
  intros Hw Hg Hf. eexists. unfold categoryService.remove.
  rewrite Hw, Hg. cbn [negb bind as_array]. rewrite Hf. cbn [bind].
  unfold_keys. split; [done|]. split; [done|].
  by apply category_getAll_written.
Qed.

Lemma download_save_step d userId w l :
  has_window w = true →
  downloadService.getAll userId w = Ok (JArr l) →
  ∃ w', downloadService.save d userId w = Ok w' ∧
        has_window w' = true ∧
        downloadService.getAll userId w' = Ok (JArr (take 50 (d :: l))).
Proof.
  intros Hw Hg. eexists. unfold downloadService.save.
  rewrite Hw, Hg. cbn [negb bind as_array]. unfold_keys.
  split; [done|]. split; [done|]. by apply download_getAll_written.
Qed.

End step_facts.

(** * Round trips on an empty store *)

(** C3 (as amended). On an empty store, a saved transaction or download is
    read back by [getAll] as the one-element list holding it, a saved PIN
    is read back as it was saved, a saved session phone is read back as
    the object holding it and the time of the call, an added category is
    read back as the list holding the object with that name and the time
    of the call, and a saved profile is read back, under the user id that
    [saveProfile] resolved, with [updatedAt] set to the time of the
    call. *)
Theorem save_read_round_trip `{Runtime} (userId : option string)
    (now : string) :
  (∀ t, ∃ w,
     transactionService.save t userId empty_browser = Ok w ∧
     transactionService.getAll userId w = Ok (JArr [t])) ∧
  (∀ d, ∃ w,
     downloadService.save d userId empty_browser = Ok w ∧
     downloadService.getAll userId w = Ok (JArr [d])) ∧
  (∀ n, ∃ w,
     categoryService.add now n userId empty_browser = Ok w ∧
     categoryService.getAll userId w = Ok (JArr [new_category now n])) ∧
  (∀ pin,
     pinService.get userId (pinService.save pin userId empty_browser)
     = Some pin) ∧
  (∀ phone,
     authService.getSession (authService.saveSession now phone empty_browser)
     = Ok (JObj {[ "phone" := JStr phone; "timestamp" := JStr now ]})) ∧
  (∀ profile id,
     (if truthy userId then Ok userId else stripped_phone (JObj profile))
       = Ok id →
     ∃ w,
       userService.saveProfile now profile userId empty_browser = Ok w ∧
       userService.getProfile id w
       = Ok (JObj (<["updatedAt" := JStr now]> profile))).
Proof.
  repeat apply conj.
  - intros t.
    destruct (txn_save_step t userId empty_browser []) as (w & ? & _ & ?);
      by eauto.
  - intros d.
    destruct (download_save_step d userId empty_browser []) as (w & ? & _ & ?);
      by eauto.
  - intros n.
    destruct (category_add_new now n userId empty_browser []) as (w & ? & _ & ?);
      by eauto.
  - intros pin. unfold pinService.get, pinService.save. cbn [negb has_window empty_browser].
    rewrite has_window_setItem. apply getItem_setItem.
  - intros phone. unfold authService.getSession, authService.saveSession.
    cbn [negb has_window empty_browser]. unfold_keys.
    rewrite has_window_setItem, getItem_setItem. apply parse_or_stringify.
  - intros profile id Hid. eexists. unfold userService.saveProfile.
    cbn [negb has_window empty_browser]. rewrite Hid. cbn [bind]. unfold_keys.
    split; [done|].
    by apply profile_written.
Qed.

Lemma save_read_round_trip_witness :
  ∃ w,
    userService.saveProfile iso_now {[ "phone" := JStr "+911234567890" ]}
      None empty_browser = Ok w ∧
    userService.getProfile (Some "911234567890") w
    = Ok (JObj (<["updatedAt" := JStr iso_now]>
                  {[ "phone" := JStr "+911234567890" ]})).
Proof.
  apply (save_read_round_trip None iso_now). reflexivity.
Defined.

(** C3 (as stated) fails for the profile: what [getProfile] returns after
    [saveProfile] carries the [updatedAt] stamp, which the saved profile
    does not. *)
Lemma profile_round_trip_is_stamped :
  ∃ w,
    userService.saveProfile iso_now {[ "phone" := JStr "5551234" ]}
      (Some "u1") empty_browser = Ok w ∧
    userService.getProfile (Some "u1") w
    = Ok (JObj {[ "phone" := JStr "5551234"; "updatedAt" := JStr iso_now ]}) ∧
    userService.getProfile (Some "u1") w
    ≠ Ok (JObj {[ "phone" := JStr "5551234" ]}).
Proof.
  pose (w := setItem "transactai_user_profile_u1"
               (JSON_stringify (JObj (<["updatedAt" := JStr iso_now]>
                                        {[ "phone" := JStr "5551234" ]})))
               empty_browser).
  assert (Hget : userService.getProfile (Some "u1") w
          = Ok (JObj (<["updatedAt" := JStr iso_now]>
                        {[ "phone" := JStr "5551234" ]}))).
  { apply (profile_written (Some "u1") empty_browser). reflexivity. }
  exists w. split; [reflexivity|]. split.
  - rewrite Hget. reflexivity.
  - rewrite Hget. intros [=].
Qed.

(** * Download history *)

Section download_history.
Context `{Runtime}.

Lemma save_all_history ds userId w l0 :
  has_window w = true →
  downloadService.getAll userId w = Ok (JArr l0) →
  ∃ w', save_all ds userId w = Ok w' ∧
        has_window w' = true ∧
        downloadService.getAll userId w'
          = Ok (JArr (match ds with
                      | [] => l0
                      | _ => take 50 (reverse ds ++ l0)
                      end)).
Proof.
  revert w l0. induction ds as [|d ds IH]; intros w l0 Hw Hg.
  { by exists w. }
  destruct (download_save_step d userId w l0 Hw Hg) as (w1 & Hs & Hw1 & Hg1).
  destruct (IH w1 _ Hw1 Hg1) as (w' & Hall & Hw' & Hg').
  exists w'. cbn [save_all]. rewrite Hs. cbn [bind].
  split; [done|]. split; [done|]. rewrite Hg'. do 2 f_equal.
  rewrite reverse_cons, <-app_assoc. cbn [app].
  destruct ds as [|d' ds]; [done|].
  rewrite !take_app.
  destruct (decide (length (reverse (d' :: ds)) < 50)) as [Hlt|Hge].
  - f_equal.
    replace (50 - length (reverse (d' :: ds))) with
      (S (49 - length (reverse (d' :: ds)))) by lia.
    cbn [take]. f_equal. rewrite take_take. f_equal. lia.
  - by replace (50 - length (reverse (d' :: ds))) with 0 by lia.
Qed.

End download_history.

(** C4. Starting from a stored download list [l0], saving the records
    [ds] one after the other leaves the 50 first elements of the saved
    records, newest first, followed by [l0]: once a record has been saved
    the list has at most 50 entries; a save onto a full list of 50 drops
    its last, oldest entry; and saving 51 records onto an empty history
    retains exactly the 50 saved last, newest first. *)
Theorem download_history_bounded `{Runtime} (ds : list json)
    (userId : option string) (w : Browser) (l0 : list json) :
  has_window w = true →
  downloadService.getAll userId w = Ok (JArr l0) →
  ds ≠ [] →
  ∃ w' l,
    save_all ds userId w = Ok w' ∧
    downloadService.getAll userId w' = Ok (JArr l) ∧
    l = take 50 (reverse ds ++ l0) ∧
    length l ≤ 50 ∧
    (∀ d l1 oldest,
       ds = [d] → l0 = l1 ++ [oldest] → length l0 = 50 → l = d :: l1) ∧
    (l0 = [] → length ds = 51 → l = reverse (drop 1 ds)).
Proof.
  intros Hw Hg Hds.
  destruct (save_all_history ds userId w l0 Hw Hg) as (w' & Hall & _ & Hg').
  exists w', (take 50 (reverse ds ++ l0)).
  split; [done|]. split; [by destruct ds|]. split; [done|].
  split; [rewrite length_take; lia|]. split.
  - intros d l1 oldest -> -> Hlen. rewrite length_app in Hlen.
    change (take 50 (reverse [d] ++ l1 ++ [oldest]))
      with (d :: take 49 (l1 ++ [oldest])).
    f_equal. apply take_app_length'. cbn [length] in Hlen. lia.
  - intros Hl0 Hlen. subst l0. destruct ds as [|d0 ds]; [done|].
    change (drop 1 (d0 :: ds)) with ds. rewrite app_nil_r, reverse_cons.
    apply take_app_length'. rewrite length_reverse.
    change (length (d0 :: ds)) with (S (length ds)) in Hlen. lia.
Qed.

Lemma download_history_bounded_witness :
  ∃ w' l,
    save_all fifty_one None empty_browser = Ok w' ∧
    downloadService.getAll None w' = Ok (JArr l) ∧
    length l ≤ 50 ∧
    l = reverse (drop 1 fifty_one).
Proof.
  destruct (download_history_bounded fifty_one None empty_browser []
              eq_refl eq_refl ltac:(discriminate))
    as (w' & l & Hsave & Hget & _ & Hlen & _ & Hlast).
  exists w', l. split; [exact Hsave|]. split; [exact Hget|].
  split; [exact Hlen|]. exact (Hlast eq_refl eq_refl).
Defined.

(** * Categories *)

Lemma named_is_object k v s : str_field k v = Some s → is_object v.
Proof. destruct v; try done. by eexists. Qed.

Section category_facts.
Context `{Runtime}.

Lemma find_same_name n cs :
  Forall (λ c, is_Some (category_name c)) cs →
  find_r (categoryService.same_name_ci n) cs
  = Ok (snd <$> list_find
          (λ c, toLowerCase <$> category_name c = Some (toLowerCase n)) cs).
Proof.
  intros Hcs. apply find_r_pure. eapply Forall_impl; [exact Hcs|].
  intros c [m Hm]. rewrite (same_name_ci_named n c m Hm), Hm. f_equal.
  apply bool_decide_ext. cbn. split; congruence.
Qed.

End category_facts.

(** C5. [categoryService.add(n)] leaves the store as it is when a stored
    category has a name equal to [n] up to case; hence adding a name and
    then the same name in another casing to an empty category list stores
    exactly one category, the first. *)
Theorem category_add_dedup `{Runtime} (now n : string)
    (userId : option string) (w : Browser) :
  (∀ cs,
     categoryService.getAll userId w = Ok (JArr cs) →
     Forall (λ c, is_Some (category_name c)) cs →
     (∃ c m, c ∈ cs ∧ category_name c = Some m ∧
             toLowerCase m = toLowerCase n) →
     categoryService.add now n userId w = Ok w) ∧
  (∀ now' n',
     has_window w = true →
     categoryService.getAll userId w = Ok (JArr []) →
     toLowerCase n' = toLowerCase n →
     ∃ w1,
       categoryService.add now n userId w = Ok w1 ∧
       categoryService.add now' n' userId w1 = Ok w1 ∧
       categoryService.getAll userId w1 = Ok (JArr [new_category now n])).
Proof.
  assert (Hdup : ∀ now n w cs,
     categoryService.getAll userId w = Ok (JArr cs) →
     Forall (λ c, is_Some (category_name c)) cs →
     (∃ c m, c ∈ cs ∧ category_name c = Some m ∧
             toLowerCase m = toLowerCase n) →
     categoryService.add now n userId w = Ok w).
  { clear. intros now n w cs Hg Hcs (c & m & Hc & Hm & Hlow).
    pose proof (find_same_name n cs Hcs) as Hf.
    destruct (list_find_elem_of
      (λ c, toLowerCase <$> category_name c = Some (toLowerCase n)) cs c Hc)
      as [[k c'] Hfind]; [by rewrite Hm; cbn; f_equal|].
    rewrite Hfind in Hf. by apply (category_add_found now n userId w cs c'). }
  split; [apply Hdup|].
  intros now' n' Hw Hg Hlow.
  destruct (category_add_new now n userId w [] Hw Hg eq_refl)
    as (w1 & Hadd & Hw1 & Hg1).
  exists w1. split; [done|]. split; [|done].
  apply (Hdup now' n' w1 [new_category now n] Hg1).
  - repeat constructor. by eexists.
  - exists (new_category now n), n. split; [apply list_elem_of_here|]. done.
Qed.

Lemma category_add_dedup_witness :
  ∃ w1,
    categoryService.add iso_now "Food" None empty_browser = Ok w1 ∧
    categoryService.add iso_now "FOOD" None w1 = Ok w1 ∧
    categoryService.getAll None w1 = Ok (JArr [new_category iso_now "Food"]).
Proof.
  destruct (category_add_dedup iso_now "Food" None empty_browser) as [Hdup Htwice].
  destruct (Htwice iso_now "FOOD" eq_refl eq_refl eq_refl)
    as (w1 & Hadd & Hagain & Hget).
  exists w1. split; [exact Hadd|]. split; [|exact Hget].
  destruct (category_add_dedup iso_now "FOOD" None w1) as [Hdup1 _].
  apply (Hdup1 [new_category iso_now "Food"] Hget).
  - repeat constructor. by eexists.
  - exists (new_category iso_now "Food"), "Food".
    split; [apply list_elem_of_here|]. split; reflexivity.
Defined.

(** C10. [categoryService.remove(n)] keeps exactly the stored categories
    whose name is not [n] character for character; a category added as
    "Food" is still stored after removing "food". *)
Theorem category_remove_exact `{Runtime} (userId : option string)
    (w : Browser) :
  has_window w = true →
  (∀ n cs,
     categoryService.getAll userId w = Ok (JArr cs) →
     Forall is_object cs →
     ∃ w',
       categoryService.remove n userId w = Ok w' ∧
       categoryService.getAll userId w'
       = Ok (JArr (filter (λ c, category_name c ≠ Some n) cs))) ∧
  (∀ now,
     categoryService.getAll userId w = Ok (JArr []) →
     ∃ w1 w2,
       categoryService.add now "Food" userId w = Ok w1 ∧
       categoryService.remove "food" userId w1 = Ok w2 ∧
       categoryService.getAll userId w2 = Ok (JArr [new_category now "Food"])).
Proof.
  intros Hw.
  assert (Hrem : ∀ w n cs,
     has_window w = true →
     categoryService.getAll userId w = Ok (JArr cs) →
     Forall is_object cs →
     ∃ w',
       categoryService.remove n userId w = Ok w' ∧
       categoryService.getAll userId w'
       = Ok (JArr (filter (λ c, category_name c ≠ Some n) cs))).
  { clear. intros w n cs Hw Hg Hcs.
    destruct (category_remove_step n userId w cs
                (filter (λ c, category_name c ≠ Some n) cs) Hw Hg)
      as (w' & Hr & _ & Hg').
    - apply filter_r_pure. eapply Forall_impl; [exact Hcs|].
      intros c Hc. by apply other_name_object.
    - by exists w'. }
  split; [intros n cs; by apply Hrem|].
  intros now Hg.
  destruct (category_add_new now "Food" userId w [] Hw Hg eq_refl)
    as (w1 & Hadd & Hw1 & Hg1).
  destruct (Hrem w1 "food" [new_category now "Food"] Hw1 Hg1)
    as (w2 & Hr & Hg2).
  { repeat constructor. by eexists. }
  exists w1, w2. split; [done|]. split; [done|]. by rewrite Hg2.
Qed.

Lemma category_remove_exact_witness :
  (∃ w',
     categoryService.remove "Food" None
       (setItem "transactai_categories"
          (JSON_stringify (JArr [new_category iso_now "Food";
                                 new_category iso_now "food"]))
          empty_browser) = Ok w' ∧
     categoryService.getAll None w' = Ok (JArr [new_category iso_now "food"])) ∧
  (∃ w1 w2,
     categoryService.add iso_now "Food" None empty_browser = Ok w1 ∧
     categoryService.remove "food" None w1 = Ok w2 ∧
     categoryService.getAll None w2 = Ok (JArr [new_category iso_now "Food"])).
Proof.
  split.
  - apply (proj1 (category_remove_exact None
                    (setItem "transactai_categories"
                       (JSON_stringify (JArr [new_category iso_now "Food";
                                              new_category iso_now "food"]))
                       empty_browser) eq_refl)
             "Food" [new_category iso_now "Food"; new_category iso_now "food"]).
    + vm_compute. reflexivity.
    + repeat constructor; by eexists.
  - apply (category_remove_exact None empty_browser eq_refl). reflexivity.
Defined.

(** * Transactions *)

Section transaction_facts.
Context `{Runtime}.

Lemma findIndex_has_id id ts :
  Forall is_object ts →
  findIndex_r (transactionService.has_id id) ts
  = Ok (fst <$> list_find (λ t, txn_id t = Some id) ts).
Proof.
  intros Hts. apply findIndex_r_pure. eapply Forall_impl; [exact Hts|].
  intros t Ht. by apply has_id_object.
Qed.

Lemma filter_other_id id ts :
  Forall is_object ts →
  filter_r (λ t, let* b := transactionService.has_id id t in Ok (negb b)) ts
  = Ok (filter (λ t, txn_id t ≠ Some id) ts).
Proof.
  intros Hts. apply filter_r_pure. eapply Forall_impl; [exact Hts|].
  intros t Ht. by apply other_id_object.
Qed.

Lemma filter_all {A} (P : A → Prop) `{∀ x, Decision (P x)} (l : list A) :
  Forall P l → filter P l = l.
Proof.
  induction 1 as [|x l Hx _ IH]; [done|].
  by rewrite filter_cons_True, IH.
Qed.

Lemma txn_id_merge o updates :
  updates !! "id" = None →
  txn_id (transactionService.merge (JObj o) updates) = txn_id (JObj o).
Proof.
  intros Hu. unfold txn_id, str_field, transactionService.merge.
  by rewrite lookup_union_r.
Qed.

End transaction_facts.

(** C6. When the stored list holds a transaction with id [id],
    [transactionService.update(id, patch)] replaces the first such
    transaction by its merge with [patch] and rewrites the list: in the
    target every field named by [patch] takes the patch's value and every
    other field keeps its value, and every other transaction of the list
    is unchanged. *)
Theorem update_merges_target_only `{Runtime} (id : string)
    (patch : gmap string json) (userId : option string) (w : Browser)
    (ts : list json) :
  has_window w = true →
  transactionService.getAll userId w = Ok (JArr ts) →
  Forall is_object ts →
  (∃ t, t ∈ ts ∧ txn_id t = Some id) →
  ∃ k o w' ts',
    ts !! k = Some (JObj o) ∧
    o !! "id" = Some (JStr id) ∧
    (∀ j t, ts !! j = Some t → j < k → txn_id t ≠ Some id) ∧
    transactionService.update id patch userId w = Ok w' ∧
    transactionService.getAll userId w' = Ok (JArr ts') ∧
    length ts' = length ts ∧
    ts' !! k = Some (JObj (patch ∪ o)) ∧
    (∀ f v, patch !! f = Some v → (patch ∪ o) !! f = Some v) ∧
    (∀ f, patch !! f = None → (patch ∪ o) !! f = o !! f) ∧
    (∀ j, j ≠ k → ts' !! j = ts !! j).
Proof.
  intros Hw Hg Hts (t & Ht & Hid).
  destruct (list_find_elem_of (λ t, txn_id t = Some id) ts t Ht Hid)
    as [[k t'] Hfind].
  pose proof Hfind as (Hk & Hid' & Hfirst)%list_find_Some.
  assert (∃ o, t' = JObj o) as [o ->]
    by (by apply (named_is_object "id" t' id)).
  pose proof (findIndex_has_id id ts Hts) as Hi. rewrite Hfind in Hi.
  destruct (txn_update_found id patch userId w ts k (JObj o) Hw Hg Hi Hk)
    as (w' & Hu & _ & Hg').
  exists k, o, w', (<[k := JObj (patch ∪ o)]> ts).
  split; [done|]. split.
  { unfold txn_id, str_field in Hid'.
    by destruct (o !! "id") as [[| | |s| |]|]; simplify_eq. }
  split; [exact Hfirst|]. split; [done|]. split; [done|].
  split; [apply length_insert|]. split.
  { apply list_lookup_insert_eq. by eapply lookup_lt_Some. }
  split; [intros f v; apply lookup_union_Some_l|].
  split; [intros f; apply lookup_union_r|].
  intros j Hj. by apply list_lookup_insert_ne.
Qed.

(** C7. When no stored transaction has id [id], [update] returns without
    throwing and leaves the store as it is, and [delete] returns without
    throwing and the list read back afterwards is the list stored
    before. *)
Theorem not_found_is_noop `{Runtime} (id : string)
    (patch : gmap string json) (userId : option string) (w : Browser)
    (ts : list json) :
  transactionService.getAll userId w = Ok (JArr ts) →
  Forall is_object ts →
  (∀ t, t ∈ ts → txn_id t ≠ Some id) →
  transactionService.update id patch userId w = Ok w ∧
  ∃ w',
    transactionService.delete id userId w = Ok w' ∧
    transactionService.getAll userId w' = Ok (JArr ts).
Proof.
  intros Hg Hts Hnone.
  assert (Hall : Forall (λ t, txn_id t ≠ Some id) ts)
    by (by apply Forall_forall).
  split.
  - apply (txn_update_missing id patch userId w ts Hg).
    rewrite findIndex_has_id by done.
    by rewrite (proj2 (list_find_None _ _) Hall).
  - destruct (has_window w) eqn:Hw.
    + destruct (txn_delete_step id userId w ts ts Hw Hg) as (w' & Hd & _ & Hg').
      { rewrite filter_other_id by done. f_equal. by apply filter_all. }
      by exists w'.
    + exists w. split; [|done]. unfold transactionService.delete. by rewrite Hw.
Qed.

(** ** Uniqueness of ids *)

Section unique_ids_facts.
Context `{Runtime}.

Lemma unique_ids_objects ts : unique_ids ts → Forall is_object ts.
Proof.
  intros [Hids _]. eapply Forall_impl; [exact Hids|].
  intros t [i Hi]. by apply (named_is_object "id" t i).
Qed.

Lemma unique_ids_snoc ts t i :
  unique_ids ts → txn_id t = Some i → Some i ∉ (txn_id <$> ts) →
  unique_ids (ts ++ [t]).
Proof.
  intros [Hids Hnd] Hi Hfresh. split.
  - apply Forall_app. split; [done|]. repeat constructor. by eexists.
  - rewrite fmap_app. apply NoDup_app. split; [done|]. split.
    + intros x Hx Hin. cbn in Hin. apply list_elem_of_singleton in Hin.
      congruence.
    + cbn. apply NoDup_singleton.
Qed.

Lemma unique_ids_insert ts k o updates :
  unique_ids ts → ts !! k = Some (JObj o) → updates !! "id" = None →
  unique_ids (<[k := transactionService.merge (JObj o) updates]> ts).
Proof.
  intros [Hids Hnd] Hk Hu.
  pose proof (txn_id_merge o updates Hu) as Hid. split.
  - apply Forall_insert; [done|]. rewrite Hid.
    by apply (Forall_lookup_1 _ _ _ _ Hids Hk).
  - rewrite list_fmap_insert, Hid, list_insert_id; [done|].
    by rewrite list_lookup_fmap, Hk.
Qed.

Lemma unique_ids_filter (P : json → Prop) `{∀ t, Decision (P t)} ts :
  unique_ids ts → unique_ids (filter P ts).
Proof.
  intros [Hids Hnd]. split.
  - apply Forall_forall. intros t [_ Ht]%list_elem_of_filter.
    by apply (proj1 (Forall_forall _ _) Hids).
  - eapply sublist_NoDup; [exact Hnd|]. apply fmap_sublist, sublist_filter.
Qed.

(** One call that keeps ids apart preserves uniqueness. *)
Lemma run_op_unique userId o w ts w' :
  has_window w = true →
  transactionService.getAll userId w = Ok (JArr ts) →
  unique_ids ts →
  keeps_ids ts o →
  run_op userId o w = Ok w' →
  has_window w' = true ∧
  ∃ ts', transactionService.getAll userId w' = Ok (JArr ts') ∧ unique_ids ts'.
Proof.
  intros Hw Hg Hu Hk Hrun.
  pose proof (unique_ids_objects ts Hu) as Hobj.
  destruct o as [t|id updates|id]; cbn [run_op keeps_ids] in *.
  - destruct Hk as (i & Hi & Hfresh).
    destruct (txn_save_step t userId w ts Hw Hg) as (w1 & Hs & Hw1 & Hg1).
    rewrite Hs in Hrun. injection Hrun as <-.
    split; [done|]. eexists. split; [done|]. by eapply unique_ids_snoc.
  - pose proof (findIndex_has_id id ts Hobj) as Hi.
    destruct (list_find (λ t, txn_id t = Some id) ts) as [[k t]|] eqn:Hfind.
    + pose proof Hfind as (Hkt & Hid & _)%list_find_Some.
      assert (∃ o, t = JObj o) as [o ->]
        by (by apply (named_is_object "id" t id)).
      destruct (txn_update_found id updates userId w ts k (JObj o) Hw Hg Hi Hkt)
        as (w1 & Hs & Hw1 & Hg1).
      rewrite Hs in Hrun. injection Hrun as <-.
      split; [done|]. eexists. split; [done|]. by apply unique_ids_insert.
    + rewrite (txn_update_missing id updates userId w ts Hg Hi) in Hrun.
      injection Hrun as <-. split; [done|]. by exists ts.
  - destruct (txn_delete_step id userId w ts _ Hw Hg (filter_other_id id ts Hobj))
      as (w1 & Hs & Hw1 & Hg1).
    rewrite Hs in Hrun. injection Hrun as <-.
    split; [done|]. eexists. split; [done|]. by apply unique_ids_filter.
Qed.

End unique_ids_facts.

(** C9 (as amended). Starting from a store with no transactions, after any
    sequence of [save], [update] and [delete] calls in which every saved
    transaction carries a string id that is not stored yet and no patch
    names the id, no two stored transactions have the same id. *)
Theorem ids_unique_when_kept_apart `{Runtime} (userId : option string)
    (w0 w : Browser) :
  has_window w0 = true →
  transactionService.getAll userId w0 = Ok (JArr []) →
  reachable userId w0 w →
  ∃ ts, transactionService.getAll userId w = Ok (JArr ts) ∧ unique_ids ts.
Proof.
  intros Hw0 Hg0 Hreach.
  enough (has_window w = true ∧
          ∃ ts, transactionService.getAll userId w = Ok (JArr ts)
                ∧ unique_ids ts) as [_ ?]; [done|].
  induction Hreach as [|w ts o w' _ (Hw & ts1 & Hg1 & Hu) Hg Hk Hrun].
  - split; [done|]. exists []. split; [done|].
    split; [constructor|apply NoDup_nil_2].
  - rewrite Hg in Hg1. injection Hg1 as <-.
    by apply (run_op_unique userId o w ts w').
Qed.

(** ** Closed examples on a store holding two transactions *)

Lemma update_merges_target_only_witness :
  ∃ k o w' ts',
    [txn_a; txn_b] !! k = Some (JObj o) ∧
    o !! "id" = Some (JStr "txn_b") ∧
    transactionService.update "txn_b" {[ "category" := JStr "Bills" ]} None
      (with_transactions [txn_a; txn_b]) = Ok w' ∧
    transactionService.getAll None w' = Ok (JArr ts') ∧
    ts' !! k = Some (JObj ({[ "category" := JStr "Bills" ]} ∪ o)) ∧
    (∀ j, j ≠ k → ts' !! j = [txn_a; txn_b] !! j).
Proof.
  destruct (update_merges_target_only "txn_b" {[ "category" := JStr "Bills" ]}
              None (with_transactions [txn_a; txn_b]) [txn_a; txn_b])
    as (k & o & w' & ts' & Hk & Hid & _ & Hu & Hg & _ & Hk' & _ & _ & Hother).
  - reflexivity.
  - vm_compute. reflexivity.
  - repeat constructor; by eexists.
  - exists txn_b. split; [|reflexivity].
    apply list_elem_of_further, list_elem_of_here.
  - exists k, o, w', ts'. repeat split; assumption.
Defined.

Lemma not_found_is_noop_witness :
  transactionService.update "txn_z" {[ "category" := JStr "Bills" ]} None
    (with_transactions [txn_a; txn_b])
  = Ok (with_transactions [txn_a; txn_b]) ∧
  ∃ w',
    transactionService.delete "txn_z" None (with_transactions [txn_a; txn_b])
      = Ok w' ∧
    transactionService.getAll None w' = Ok (JArr [txn_a; txn_b]).
Proof.
  apply (not_found_is_noop "txn_z" {[ "category" := JStr "Bills" ]} None
           (with_transactions [txn_a; txn_b]) [txn_a; txn_b]).
  - vm_compute. reflexivity.
  - repeat constructor; by eexists.
  - apply Forall_forall. repeat constructor; discriminate.
Defined.

Lemma ids_unique_when_kept_apart_witness :
  ∃ ts,
    transactionService.getAll None (with_transactions [txn_b]) = Ok (JArr ts) ∧
    unique_ids ts.
Proof.
  apply (ids_unique_when_kept_apart None empty_browser
           (with_transactions [txn_b]) eq_refl eq_refl).
  (* save txn_a; save txn_b; delete "txn_a" *)
  apply (reach_step None empty_browser (with_transactions [txn_a; txn_b])
           [txn_a; txn_b] (OpDelete "txn_a")).
  - apply (reach_step None empty_browser (with_transactions [txn_a])
             [txn_a] (OpSave txn_b)).
    + apply (reach_step None empty_browser empty_browser [] (OpSave txn_a)).
      * apply reach_init.
      * reflexivity.
      * exists "txn_a". split; [reflexivity|]. apply not_elem_of_nil.
      * reflexivity.
    + vm_compute. reflexivity.
    + exists "txn_b". split; [reflexivity|].
      intros Hin. apply list_elem_of_singleton in Hin. discriminate.
    + vm_compute. reflexivity.
  - vm_compute. reflexivity.
  - exact I.
  - vm_compute. reflexivity.
Defined.

(** C9 (as stated) fails: [save] appends whatever it is given, so saving
    a transaction twice stores two transactions with one id. *)
Lemma duplicate_ids_are_stored :
  ∃ w1 w2,
    transactionService.save txn_a None empty_browser = Ok w1 ∧
    transactionService.save txn_a None w1 = Ok w2 ∧
    transactionService.getAll None w2 = Ok (JArr [txn_a; txn_a]) ∧
    ¬ NoDup (txn_id <$> [txn_a; txn_a]).
Proof.
  destruct (txn_save_step txn_a None empty_browser [] eq_refl eq_refl)
    as (w1 & Hs1 & Hw1 & Hg1).
  destruct (txn_save_step txn_a None w1 [txn_a] Hw1 Hg1)
    as (w2 & Hs2 & _ & Hg2).
  exists w1, w2. split; [done|]. split; [done|]. split; [done|].
  intros Hnd. apply NoDup_cons in Hnd as [Hnotin _].
  apply Hnotin, list_elem_of_here.
Qed.

(** * Which key each operation uses *)

Lemma is_str_field k s o :
  is_str s (o !! k) = bool_decide (str_field k (JObj o) = Some s).
Proof.
  unfold str_field. destruct (o !! k) as [[| | |s'| |]|]; cbn [is_str];
    try (by rewrite bool_decide_eq_false_2).
  apply bool_decide_ext. split; congruence.
Qed.

Section key_use_facts.
Context `{Runtime}.

Lemma session_key_object base w s o :
  getItem w "transactai_auth_session" = Some s →
  JSON_parse s = Some (JObj o) →
  session_key base w = Ok (Some (base +:+ "_" +:+
    match o !! "phone" with
    | Some (JStr p) => if nonempty (strip_plus p) then strip_plus p else "default"
    | _ => "default"
    end)) ∨
  (∃ v, o !! "phone" = Some v ∧ v ≠ JNull ∧ (∀ p, v ≠ JStr p)).
Proof.
  intros Hs Hp. unfold session_key, parse. rewrite Hs.
  destruct s; [by rewrite JSON_parse_empty in Hp|].
  cbn [nonempty]. rewrite Hp. cbn [bind].
  unfold stripped_phone. cbn [prop bind].
  destruct (o !! "phone") as [[| | |p| |]|] eqn:Ho; cbn [bind or_str];
    try (by left); right; eexists; repeat split; done.
Qed.

Lemma download_other_id id l :
  Forall is_object l →
  filter_r (λ d, let* i := prop d "id" in Ok (negb (is_str id i))) l
  = Ok (filter (λ d, str_field "id" d ≠ Some id) l).
Proof.
  intros Hl. apply filter_r_pure. eapply Forall_impl; [exact Hl|].
  intros d [o ->]. cbn [prop bind]. by rewrite is_str_field, bool_decide_not.
Qed.

Lemma category_filter_pure c l :
  Forall is_object l →
  filter_r (λ t, let* x := prop t "category" in Ok (is_str c x)) l
  = Ok (filter (λ t, str_field "category" t = Some c) l).
Proof.
  intros Hl. apply filter_r_pure. eapply Forall_impl; [exact Hl|].
  intros t [o ->]. cbn [prop bind]. by rewrite is_str_field.
Qed.

Lemma names_pure l :
  Forall (λ c, is_Some (category_name c)) l →
  map_r (λ c, prop c "name") l = Ok ((λ c, JStr <$> category_name c) <$> l).
Proof.
  induction 1 as [|c l [n Hn] _ IH]; [done|].
  cbn [map_r]. rewrite IH.
  unfold category_name, str_field in *.
  destruct c as [| | | | |o]; try done. cbn [prop bind fmap list_fmap].
  destruct (o !! "name") as [[| | |s| |]|]; try done.
Qed.

End key_use_facts.

(** C1 (as amended). [getUserKey] resolves a key in the order: a non-empty
    explicit user id gives [base_userId]; otherwise, in a browser whose
    stored session parses to an object, the string phone of the session
    with every '+' removed gives [base_phone], and a session object
    without a phone, or with a phone of which nothing is left, gives
    [base_default]; otherwise, with no session stored or outside a
    browser, the bare base key. In a browser, [getProfile] and, on stored
    lists of records, every operation of the transaction, category and
    download services ([getAll], [save], [saveMany], [update], [delete],
    [getByCategory], [getNames], [add], [remove], [clear]) read and write
    exactly the key so resolved for their base key, and [saveProfile]
    writes the key resolved with the profile's own phone without '+' in
    place of a missing user id. The five PIN operations ([save],
    [verify], [exists], [remove], [get]) do not consult the session: they
    use [transactai_pin_userId] for a non-empty explicit user id and the
    bare [transactai_pin] otherwise. [saveSession] and [getSession] use
    the one global session key. *)
Theorem getUserKey_resolution `{Runtime} (userId : option string)
    (w : Browser) :
  (* the resolution order, for every base key *)
  (∀ base,
     (∀ u, userId = Some u → u ≠ "" →
        getUserKey base userId w = base +:+ "_" +:+ u) ∧
     (∀ s o p,
        truthy userId = false → has_window w = true →
        getItem w "transactai_auth_session" = Some s →
        JSON_parse s = Some (JObj o) → o !! "phone" = Some (JStr p) →
        getUserKey base userId w
        = base +:+ "_" +:+
            (if nonempty (strip_plus p) then strip_plus p else "default")) ∧
     (∀ s o,
        truthy userId = false → has_window w = true →
        getItem w "transactai_auth_session" = Some s →
        JSON_parse s = Some (JObj o) → o !! "phone" = None →
        getUserKey base userId w = base +:+ "_" +:+ "default") ∧
     (truthy userId = false →
        getItem w "transactai_auth_session" = None ∨ has_window w = false →
        getUserKey base userId w = base)) ∧
  (* the profile *)
  (has_window w = true →
     userService.getProfile userId w
     = parse_or (getItem w (getUserKey "transactai_user_profile" userId w)) JNull ∧
     ∀ now profile,
       let stored := JSON_stringify (JObj (<["updatedAt" := JStr now]> profile)) in
       (truthy userId = true →
          userService.saveProfile now profile userId w
          = Ok (setItem (getUserKey "transactai_user_profile" userId w) stored w)) ∧
       (∀ p, truthy userId = false → profile !! "phone" = Some (JStr p) →
          userService.saveProfile now profile userId w
          = Ok (setItem (getUserKey "transactai_user_profile"
                           (Some (strip_plus p)) w) stored w)) ∧
       (truthy userId = false → profile !! "phone" = None →
          userService.saveProfile now profile userId w
          = Ok (setItem (getUserKey "transactai_user_profile" None w) stored w))) ∧
  (* transactions *)
  (has_window w = true →
     let k := getUserKey "transactai_transactions" userId w in
     transactionService.getAll userId w = parse_or (getItem w k) (JArr []) ∧
     (∀ l, transactionService.saveMany l userId w
           = Ok (setItem k (JSON_stringify (JArr l)) w)) ∧
     ∀ ts, transactionService.getAll userId w = Ok (JArr ts) →
       (∀ t, transactionService.save t userId w
             = Ok (setItem k (JSON_stringify (JArr (ts ++ [t]))) w)) ∧
       (Forall is_object ts →
          (∀ c, transactionService.getByCategory c userId w
                = Ok (filter (λ t, str_field "category" t = Some c) ts)) ∧
          (∀ id updates i o,
             list_find (λ t, txn_id t = Some id) ts = Some (i, JObj o) →
             transactionService.update id updates userId w
             = Ok (setItem k
                     (JSON_stringify (JArr (<[i := JObj (updates ∪ o)]> ts))) w)) ∧
          (∀ id, transactionService.delete id userId w
                 = Ok (setItem k
                         (JSON_stringify
                            (JArr (filter (λ t, txn_id t ≠ Some id) ts))) w)))) ∧
  (* categories *)
  (has_window w = true →
     let k := getUserKey "transactai_categories" userId w in
     categoryService.getAll userId w = parse_or (getItem w k) (JArr []) ∧
     ∀ cs, categoryService.getAll userId w = Ok (JArr cs) →
       (Forall (λ c, is_Some (category_name c)) cs →
          categoryService.getNames userId w
          = Ok ((λ c, JStr <$> category_name c) <$> cs) ∧
          (∀ now n,
             Forall (λ c, toLowerCase <$> category_name c
                          ≠ Some (toLowerCase n)) cs →
             categoryService.add now n userId w
             = Ok (setItem k
                     (JSON_stringify (JArr (cs ++ [new_category now n]))) w))) ∧
       (Forall is_object cs →
          ∀ n, categoryService.remove n userId w
               = Ok (setItem k
                       (JSON_stringify
                          (JArr (filter (λ c, category_name c ≠ Some n) cs))) w))) ∧
  (* downloads *)
  (has_window w = true →
     let k := getUserKey "transactai_downloads" userId w in
     downloadService.getAll userId w = parse_or (getItem w k) (JArr []) ∧
     downloadService.clear userId w = removeItem k w ∧
     ∀ ds, downloadService.getAll userId w = Ok (JArr ds) →
       (∀ d, downloadService.save d userId w
             = Ok (setItem k (JSON_stringify (JArr (take 50 (d :: ds)))) w)) ∧
       (Forall is_object ds →
          ∀ id, downloadService.delete id userId w
                = Ok (setItem k
                        (JSON_stringify
                           (JArr (filter (λ d, str_field "id" d ≠ Some id) ds))) w))) ∧
  (* the PIN *)
  (∀ k,
     (∃ u, userId = Some u ∧ u ≠ "" ∧ k = "transactai_pin" +:+ "_" +:+ u) ∨
     (truthy userId = false ∧ k = "transactai_pin") →
     has_window w = true →
     (∀ pin, pinService.save pin userId w = setItem k pin w) ∧
     (∀ pin, pinService.verify pin userId w
             = bool_decide (getItem w k = Some pin)) ∧
     pinService.exists_ userId w = truthy (getItem w k) ∧
     pinService.remove userId w = removeItem k w ∧
     pinService.get userId w = getItem w k) ∧
  (* the session *)
  (has_window w = true →
     (∀ now phone,
        authService.saveSession now phone w
        = setItem "transactai_auth_session"
            (JSON_stringify
               (JObj {[ "phone" := JStr phone; "timestamp" := JStr now ]})) w) ∧
     authService.getSession w
     = parse_or (getItem w "transactai_auth_session") JNull).
Proof.
  split; [intros base|]; repeat apply conj.
  - intros u -> Hu. rewrite getUserKey_explicit; by destruct u.
  - intros s o p Hu Hw Hs Hp Ho. unfold getUserKey.
    rewrite Hu, Hw. cbn [negb].
    destruct (session_key_object base w s o Hs Hp) as [->|(v & Hv & _ & Hnot)].
    + by rewrite Ho.
    + rewrite Ho in Hv. injection Hv as <-. by destruct (Hnot p).
  - intros s o Hu Hw Hs Hp Ho. unfold getUserKey.
    rewrite Hu, Hw. cbn [negb].
    destruct (session_key_object base w s o Hs Hp) as [->|(v & Hv & _)].
    + by rewrite Ho.
    + by rewrite Ho in Hv.
  - intros Hu [Hs| Hw]; [by apply getUserKey_no_session|].
    unfold getUserKey. by rewrite Hu, Hw.
  - intros Hw. split.
    { unfold userService.getProfile. unfold_keys. by rewrite Hw. }
    intros now profile stored. unfold userService.saveProfile.
    rewrite Hw. cbn [negb]. unfold_keys. repeat apply conj.
    + by intros ->.
    + intros p -> Hp. unfold stripped_phone. cbn [prop bind]. by rewrite Hp.
    + intros -> Hp. unfold stripped_phone. cbn [prop bind]. by rewrite Hp.
  - intros Hw k. split.
    { unfold transactionService.getAll. unfold_keys. by rewrite Hw. }
    split.
    { intros l. unfold transactionService.saveMany. unfold_keys. by rewrite Hw. }
    intros ts Hg. split.
    { intros t. unfold transactionService.save. unfold_keys. by rewrite Hw, Hg. }
    intros Hts. repeat apply conj.
    + intros c. unfold transactionService.getByCategory. rewrite Hg.
      cbn [bind as_array]. by apply category_filter_pure.
    + intros id updates i o Hfind. unfold transactionService.update.
      unfold_keys. rewrite Hw, Hg. cbn [negb bind as_array].
      rewrite (findIndex_has_id id ts Hts), Hfind. cbn [bind fmap option_fmap option_map fst].
      apply list_find_Some in Hfind as (Hi & _). by rewrite Hi.
    + intros id. unfold transactionService.delete. unfold_keys.
      rewrite Hw, Hg. cbn [negb bind as_array].
      by rewrite (filter_other_id id ts Hts).
  - intros Hw k. split.
    { unfold categoryService.getAll. unfold_keys. by rewrite Hw. }
    intros cs Hg. split.
    + intros Hcs. split.
      { unfold categoryService.getNames. rewrite Hg. cbn [bind as_array].
        by apply names_pure. }
      intros now n Hnone. unfold categoryService.add. unfold_keys.
      rewrite Hw, Hg. cbn [negb bind as_array].
      rewrite (find_same_name n cs Hcs).
      by rewrite (proj2 (list_find_None _ _) Hnone).
    + intros Hcs n. unfold categoryService.remove. unfold_keys.
      rewrite Hw, Hg. cbn [negb bind as_array].
      rewrite (filter_r_pure (categoryService.other_name n)
                 (λ c, category_name c ≠ Some n) cs); [done|].
      eapply Forall_impl; [exact Hcs|]. intros c Hc. by apply other_name_object.
  - intros Hw k. split.
    { unfold downloadService.getAll. unfold_keys. by rewrite Hw. }
    split.
    { unfold downloadService.clear. unfold_keys. by rewrite Hw. }
    intros ds Hg. split.
    + intros d. unfold downloadService.save. unfold_keys. by rewrite Hw, Hg.
    + intros Hds id. unfold downloadService.delete. unfold_keys.
      rewrite Hw, Hg. cbn [negb bind as_array].
      by rewrite (download_other_id id ds Hds).
  - intros k Hk Hw.
    assert (Hkey : pinService.key userId = k).
    { unfold pinService.key. unfold_keys.
      destruct Hk as [(u & -> & Hu & ->)|[-> ->]]; [by destruct u|done]. }
    unfold pinService.save, pinService.verify, pinService.exists_,
      pinService.remove, pinService.get. by rewrite Hw, Hkey.
  - intros Hw. unfold authService.saveSession, authService.getSession.
    unfold_keys. by rewrite Hw.
Qed.

Lemma getUserKey_resolution_witness :
  getUserKey "transactai_transactions" (Some "911234567890") empty_browser
    = "transactai_transactions_911234567890" ∧
  getUserKey "transactai_transactions" None logged_in
    = "transactai_transactions_911234567890" ∧
  getUserKey "transactai_transactions" None
    (setItem "transactai_auth_session"
       (JSON_stringify (JObj {[ "timestamp" := JStr iso_now ]})) empty_browser)
    = "transactai_transactions_default" ∧
  getUserKey "transactai_transactions" None empty_browser
    = "transactai_transactions" ∧
  userService.saveProfile iso_now {[ "phone" := JStr "+15551234" ]} None logged_in
    = Ok (setItem "transactai_user_profile_15551234"
            (JSON_stringify
               (JObj (<["updatedAt" := JStr iso_now]>
                        {[ "phone" := JStr "+15551234" ]}))) logged_in) ∧
  transactionService.delete "txn_a" (Some "alice")
    (setItem "transactai_transactions_alice"
       (JSON_stringify (JArr [txn_a; txn_b])) empty_browser)
    = Ok (setItem "transactai_transactions_alice" (JSON_stringify (JArr [txn_b]))
            (setItem "transactai_transactions_alice"
               (JSON_stringify (JArr [txn_a; txn_b])) empty_browser)) ∧
  categoryService.add iso_now "Food" None logged_in
    = Ok (setItem "transactai_categories_911234567890"
            (JSON_stringify (JArr [new_category iso_now "Food"])) logged_in) ∧
  downloadService.clear None logged_in
    = removeItem "transactai_downloads_911234567890" logged_in ∧
  pinService.verify "4321" None logged_in
    = bool_decide (getItem logged_in "transactai_pin" = Some "4321") ∧
  pinService.get (Some "alice") logged_in
    = getItem logged_in "transactai_pin_alice" ∧
  authService.getSession logged_in
    = parse_or (getItem logged_in "transactai_auth_session") JNull.
Proof.
  pose proof (getUserKey_resolution (Some "911234567890") empty_browser)
    as (Hexplicit & _).
  pose proof (getUserKey_resolution None logged_in)
    as (Hlogged & Hprofile & _ & Hcat & Hdl & Hpin & Hsession).
  pose proof (getUserKey_resolution None
        (setItem "transactai_auth_session"
           (JSON_stringify (JObj {[ "timestamp" := JStr iso_now ]}))
           empty_browser))
    as (Hnophone & _).
  pose proof (getUserKey_resolution None empty_browser) as (Hbare & _).
  pose proof (getUserKey_resolution (Some "alice")
        (setItem "transactai_transactions_alice"
           (JSON_stringify (JArr [txn_a; txn_b])) empty_browser))
    as (_ & _ & Htxn & _).
  pose proof (getUserKey_resolution (Some "alice") logged_in)
    as (_ & _ & _ & _ & _ & Hpin' & _).
  assert (Hkey : getUserKey "transactai_transactions" None logged_in
                 = "transactai_transactions_911234567890").
  { destruct (Hlogged "transactai_transactions") as (_ & Hphone & _).
    apply (Hphone _ {[ "phone" := JStr "+911234567890"; "timestamp" := JStr iso_now ]}
             "+911234567890" eq_refl eq_refl logged_in_session);
      [apply JSON_parse_stringify | reflexivity]. }
  assert (Hckey : getUserKey "transactai_categories" None logged_in
                  = "transactai_categories_911234567890").
  { destruct (Hlogged "transactai_categories") as (_ & Hphone & _).
    apply (Hphone _ {[ "phone" := JStr "+911234567890"; "timestamp" := JStr iso_now ]}
             "+911234567890" eq_refl eq_refl logged_in_session);
      [apply JSON_parse_stringify | reflexivity]. }
  assert (Hdkey : getUserKey "transactai_downloads" None logged_in
                  = "transactai_downloads_911234567890").
  { destruct (Hlogged "transactai_downloads") as (_ & Hphone & _).
    apply (Hphone _ {[ "phone" := JStr "+911234567890"; "timestamp" := JStr iso_now ]}
             "+911234567890" eq_refl eq_refl logged_in_session);
      [apply JSON_parse_stringify | reflexivity]. }
  repeat apply conj.
  - destruct (Hexplicit "transactai_transactions") as (He & _).
    apply (He "911234567890"); [reflexivity | discriminate].
  - exact Hkey.
  - destruct (Hnophone "transactai_transactions") as (_ & _ & Hdefault & _).
    apply (Hdefault _ {[ "timestamp" := JStr iso_now ]} eq_refl eq_refl eq_refl);
      [apply JSON_parse_stringify | reflexivity].
  - destruct (Hbare "transactai_transactions") as (_ & _ & _ & Hnone).
    apply Hnone; [reflexivity | by left].
  - destruct (Hprofile eq_refl) as (_ & Hsave).
    destruct (Hsave iso_now {[ "phone" := JStr "+15551234" ]}) as (_ & Hphone & _).
    apply (Hphone "+15551234" eq_refl). reflexivity.
  - destruct (Htxn eq_refl) as (_ & _ & Hlist).
    destruct (Hlist [txn_a; txn_b]) as (_ & Hobjects).
    { vm_compute. reflexivity. }
    destruct Hobjects as (_ & _ & Hdelete).
    { repeat constructor; by eexists. }
    exact (Hdelete "txn_a").
  - destruct (Hcat eq_refl) as (_ & Hlist).
    destruct (Hlist []) as (Hnamed & _).
    { vm_compute. reflexivity. }
    destruct (Hnamed ltac:(constructor)) as (_ & Hadd).
    rewrite <-Hckey. apply (Hadd iso_now "Food"). constructor.
  - destruct (Hdl eq_refl) as (_ & Hclear & _).
    rewrite <-Hdkey. exact Hclear.
  - assert (Hbare_pin :
      (∃ u, None = Some u ∧ u ≠ "" ∧ "transactai_pin" = "transactai_pin" +:+ "_" +:+ u)
      ∨ (truthy None = false ∧ "transactai_pin" = "transactai_pin"))
      by (right; split; reflexivity).
    destruct (Hpin "transactai_pin" Hbare_pin eq_refl) as (_ & Hverify & _).
    exact (Hverify "4321").
  - assert (Halice_pin :
      (∃ u, Some "alice" = Some u ∧ u ≠ ""
            ∧ "transactai_pin_alice" = "transactai_pin" +:+ "_" +:+ u)
      ∨ (truthy (Some "alice") = false ∧ "transactai_pin_alice" = "transactai_pin")).
    { left. exists "alice". split; [reflexivity|]. split; [discriminate|reflexivity]. }
    destruct (Hpin' "transactai_pin_alice" Halice_pin eq_refl)
      as (_ & _ & _ & _ & Hget).
    exact Hget.
  - exact (proj2 (Hsession eq_refl)).
Defined.
